(** * Burn_Assessment: the U-Net segmentation script, [models/Segmentation/u_net.py]

    A shallow embedding of the three parts of the script:

    - [BurnDataset]: the dataset adapter over a pair of directories;
    - [UNet]: the encoder/decoder network, at the level of tensor shapes;
    - [Train]: the training loop with its periodic validation round.

    Python integers are [Z] ([//] is [Z.div], [%] is [Z.modulo], both
    flooring like Python's), Python exceptions are the constructors of [exn],
    and a call that may raise returns a [res]. *)

From Stdlib Require Import ZArith List String Ascii Lia.
From Stdlib Require Import Floats.SpecFloat.
From Stdlib Require Import Strings.Byte.
From stdpp Require Import base gmap strings list.

Open Scope Z_scope.

(** ** Exceptions and results *)

Inductive exn : Type :=
| FileNotFoundError
| IndexError
| ValueError
| ZeroDivisionError
| RuntimeError.

Inductive res (A : Type) : Type :=
| Ok (a : A)
| Raise (e : exn).

Arguments Ok {A} a.
Arguments Raise {A} e.

Definition bind {A B : Type} (r : res A) (k : A -> res B) : res B :=
  match r with
  | Ok a => k a
  | Raise e => Raise e
  end.

Notation "'let*' x ':=' r 'in' k" := (bind r (fun x => k))
  (at level 10, x pattern, r at level 100, k at level 200).

(** ** Floating-point numbers *)

(** numpy's float64 and torch's float32 are the IEEE 754 formats binary64 and
    binary32: [spec_float] values of precision 53 and 24. Every operation
    rounds to nearest, ties to even. *)

(** An integer as a float64. *)
Definition float64_of_int (v : Z) : spec_float := binary_normalize 53 1024 v 0 false.

(** The quotient of two float64. *)
Definition float64_div (x y : spec_float) : spec_float := SFdiv 53 1024 x y.

(** An integer as a float32. *)
Definition float32_of_int (v : Z) : spec_float := binary_normalize 24 128 v 0 false.

(** A float64 rounded to float32. *)
Definition float32_of_float64 (x : spec_float) : spec_float :=
  match x with
  | S754_finite s m e => binary_normalize 24 128 (cond_Zopp s (Z.pos m)) e s
  | _ => x
  end.

(** 1.0 as a float32: 2^23 * 2^-23. *)
Definition float32_one : spec_float := S754_finite false 8388608 (-23).

(** [0 <= x <= 1] on floats. *)
Definition in_unit_interval (x : spec_float) : bool :=
  SFleb (S754_zero false) x && SFleb x float32_one.

(** ** The dataset adapter *)

Module BurnDataset.

(** A numpy array or a tensor: its shape and its elements in row-major order. *)
Record ndarray (A : Type) : Type := mk_ndarray {
  shape : list nat;
  buf : list A
}.

Arguments mk_ndarray {A} shape buf.
Arguments shape {A} n.
Arguments buf {A} n.

(** An array of an integer dtype, or the float64 array a true division
    makes of it. *)
Inductive nparray : Type :=
| IntArr (a : ndarray Z)
| FloatArr (a : ndarray spec_float).

Definition size_of (sh : list nat) : nat := fold_right Nat.mul 1%nat sh.

Definition well_formed {A : Type} (a : ndarray A) : Prop :=
  length (buf a) = size_of (shape a).

(** A decoded raster image, as [Image.open] returns it. A mode of several
    bands (LA, RGB, RGBA, CMYK, ...) holds 8 bits per band; a mode of one band
    holds 1 bit (mode 1), 8 bits (L, P), 16 bits (I;16) or 32 bits (I) per
    pixel. *)
Inductive PIL_Image : Type :=
| Bands (h w c : nat) (px : list byte)
| Plane (h w : nat) (px : list Z).

Definition byte_to_int (b : byte) : Z := Z.of_N (Byte.to_N b).

(** [np.array(img)]: shape (h, w, c) and dtype uint8 for an image of
    several bands, shape (h, w) for an image of one band. *)
Definition np_array (img : PIL_Image) : ndarray Z :=
  match img with
  | Bands h w c px => mk_ndarray [h; w; c] (map byte_to_int px)
  | Plane h w px => mk_ndarray [h; w] px
  end.

(** A directory lists its entries in some fixed order; every entry is a
    raster image. *)
Abbreviation directory := (list (string * PIL_Image)).

Fixpoint dir_lookup (name : string) (d : directory) : option PIL_Image :=
  match d with
  | [] => None
  | (n, img) :: rest => if String.eqb n name then Some img else dir_lookup name rest
  end.

(** [os.listdir(path)] *)
Definition listdir (fs : gmap string directory) (path : string) : res (list string) :=
  match fs !! path with
  | Some d => Ok (map fst d)
  | None => Raise FileNotFoundError
  end.

(** [Image.open(os.path.join(dir, name))]: the entry [name] of directory [dir]. *)
Definition Image_open (fs : gmap string directory) (dir name : string) : res PIL_Image :=
  match fs !! dir with
  | Some d =>
      match dir_lookup name d with
      | Some img => Ok img
      | None => Raise FileNotFoundError
      end
  | None => Raise FileNotFoundError
  end.

(** [os.path.exists(os.path.join(dir, name))] *)
Definition file_exists (fs : gmap string directory) (dir name : string) : bool :=
  match fs !! dir with
  | Some d => match dir_lookup name d with Some _ => true | None => false end
  | None => false
  end.

Record t : Type := mk {
  inputs_dir : string;
  masks_dir : string;
  data : list string;
  train : bool
}.

Definition __init__ (fs : gmap string directory) (inputs masks : string) (tr : bool) : res t :=
  let* names := listdir fs inputs in
  Ok {| inputs_dir := inputs; masks_dir := masks; data := names; train := tr |}.

Definition __len__ (self : t) : nat := length (data self).

(** [l[index]] on a Python list: negative indices count from the end. *)
Definition py_index {A : Type} (l : list A) (index : Z) : res A :=
  let n := Z.of_nat (length l) in
  let i := if index <? 0 then index + n else index in
  if (0 <=? i) && (i <? n) then
    match l !! Z.to_nat i with
    | Some x => Ok x
    | None => Raise IndexError
    end
  else Raise IndexError.

(** [name.split(".")[0]]: the text before the first dot. *)
Fixpoint stem (name : string) : string :=
  match name with
  | EmptyString => EmptyString
  | String c rest => if Ascii.eqb c "."%char then EmptyString else String c (stem rest)
  end.

(** [a.transpose((2, 0, 1))]: element [(c, h, w)] of the result is element
    [(h, w, c)] of [a]; only an array of three axes has such a transpose. *)
Definition transpose_201 (a : ndarray Z) : res (ndarray Z) :=
  match shape a with
  | [h; w; c] =>
      Ok (mk_ndarray [c; h; w]
            (flat_map (fun ci =>
               flat_map (fun hi =>
                 map (fun wi => nth ((hi * w + wi) * c + ci)%nat (buf a) 0)
                     (seq 0 w))
                 (seq 0 h))
               (seq 0 c)))
  | _ => Raise ValueError
  end.

(** [a.max()]: an empty array has no maximum. *)
Definition array_max (l : list Z) : res Z :=
  match l with
  | [] => Raise ValueError
  | x :: rest => Ok (fold_left Z.max rest x)
  end.

(** One element of [a / 255] on an integer array: the float64 quotient. *)
Definition div255_elem (v : Z) : spec_float :=
  float64_div (float64_of_int v) (float64_of_int 255).

(** [a / 255] *)
Definition div255 (a : ndarray Z) : ndarray spec_float :=
  mk_ndarray (shape a) (map div255_elem (buf a)).

Definition preprocess (img : PIL_Image) : res nparray :=
  let img_array := np_array img in
  let* img_array := transpose_201 img_array in
  let* m := array_max (buf img_array) in
  if 1 <? m then Ok (FloatArr (div255 img_array))
  else Ok (IntArr img_array).

(** [torch.from_numpy(a).type(torch.FloatTensor)]: every element as a
    float32. *)
Definition to_float_tensor (a : nparray) : ndarray spec_float :=
  match a with
  | IntArr a => mk_ndarray (shape a) (map float32_of_int (buf a))
  | FloatArr a => mk_ndarray (shape a) (map float32_of_float64 (buf a))
  end.

Definition __getitem__ (fs : gmap string directory) (self : t) (index : Z)
  : res (ndarray spec_float * ndarray spec_float) :=
  let* name := py_index (data self) index in
  let file_name := stem name in
  let* image := Image_open fs (inputs_dir self) (file_name +:+ ".png") in
  let* mask := Image_open fs (masks_dir self) (file_name +:+ ".png") in
  let* image := preprocess image in
  let mask := div255 (np_array mask) in
  let im := to_float_tensor image in
  let ground_t := to_float_tensor (FloatArr mask) in
  Ok (im, ground_t).

(** An element of a returned tensor that went through the division: the
    float32 nearest to the float64 nearest to [v / 255]. *)
Definition scaled (v : Z) : spec_float := float32_of_float64 (div255_elem v).

(** *** Sample directories used to run the definitions *)

Definition rgb_1x1 : PIL_Image := Bands 1 1 3 [xff; x80; x00].
Definition rgba_1x1 : PIL_Image := Bands 1 1 4 [xff; x80; x00; xff].
Definition rgb_2x2 : PIL_Image :=
  Bands 2 2 3 [x00; x01; x02;  x55; x56; x57;  xaa; xab; xac;  xfd; xfe; xff].
Definition bits_1x2 : PIL_Image := Bands 1 2 3 [x00; x01; x01;  x01; x00; x00].
Definition grey_1x1 : PIL_Image := Plane 1 1 [255].
Definition grey_2x2 : PIL_Image := Plane 2 2 [0; 85; 170; 255].
Definition grey16_1x1 : PIL_Image := Plane 1 1 [65535].

(** One matched pair [a.png]. *)
Definition fs_pair : gmap string directory :=
  <["in" := [("a.png", rgb_1x1)]]> (<["masks" := [("a.png", grey_1x1)]]> ∅).

(** A matched pair of 2 x 2 pixels. *)
Definition fs_2x2 : gmap string directory :=
  <["in" := [("a.png", rgb_2x2)]]> (<["masks" := [("a.png", grey_2x2)]]> ∅).

(** An input without its mask. *)
Definition fs_no_mask : gmap string directory :=
  <["in" := [("a.png", rgb_1x1)]]> (<["masks" := []]> ∅).

(** A JPEG input with its mask, and no PNG of that stem among the inputs. *)
Definition fs_jpg : gmap string directory :=
  <["in" := [("a.jpg", rgb_1x1)]]> (<["masks" := [("a.png", grey_1x1)]]> ∅).

(** A JPEG input next to a PNG of the same stem. *)
Definition fs_jpg_png : gmap string directory :=
  <["in" := [("a.jpg", rgb_1x1); ("a.png", rgb_1x1)]]>
    (<["masks" := [("a.png", grey_1x1)]]> ∅).

(** An input [a.b.png] next to [a.png]; the masks directory has [a.png] only. *)
Definition fs_dotted : gmap string directory :=
  <["in" := [("a.b.png", rgb_1x1); ("a.png", rgba_1x1)]]>
    (<["masks" := [("a.png", grey_2x2)]]> ∅).

(** An RGBA input whose mask has another size. *)
Definition fs_rgba : gmap string directory :=
  <["in" := [("a.png", rgba_1x1)]]> (<["masks" := [("a.png", grey_2x2)]]> ∅).

(** A mask stored with 16 bits per pixel. *)
Definition fs_grey16 : gmap string directory :=
  <["in" := [("a.png", rgb_1x1)]]> (<["masks" := [("a.png", grey16_1x1)]]> ∅).

(** 255/255, 128/255, 85/255 and 170/255 as the tensors hold them. *)
Example scaled_255 : scaled 255 = float32_one.
Proof. vm_compute. reflexivity. Qed.

Example scaled_128 : scaled 128 = S754_finite false 8421505 (-24).
Proof. vm_compute. reflexivity. Qed.

Example scaled_85 : scaled 85 = S754_finite false 11184811 (-25).
Proof. vm_compute. reflexivity. Qed.

Example scaled_170 : scaled 170 = S754_finite false 11184811 (-24).
Proof. vm_compute. reflexivity. Qed.

Example div255_elem_85 : div255_elem 85 = S754_finite false 6004799503160661 (-54).
Proof. vm_compute. reflexivity. Qed.

Example getitem_pair :
  __getitem__ fs_pair (mk "in" "masks" ["a.png"] true) 0
  = Ok (mk_ndarray [3; 1; 1]%nat [scaled 255; scaled 128; scaled 0],
        mk_ndarray [1; 1]%nat [scaled 255]).
Proof. vm_compute. reflexivity. Qed.

(** The sample of the 2 x 2 pair: the channels of the input come first, and
    every element is rounded twice. *)
Definition im_2x2 : ndarray spec_float :=
  mk_ndarray [3; 2; 2]%nat
    [scaled 0; scaled 85; scaled 170; scaled 253;
     scaled 1; scaled 86; scaled 171; scaled 254;
     scaled 2; scaled 87; scaled 172; scaled 255].

Definition gt_2x2 : ndarray spec_float :=
  mk_ndarray [2; 2]%nat [scaled 0; scaled 85; scaled 170; scaled 255].

Example getitem_2x2 :
  __getitem__ fs_2x2 (mk "in" "masks" ["a.png"] true) 0 = Ok (im_2x2, gt_2x2).
Proof. vm_compute. reflexivity. Qed.

(** An input whose bytes are all 0 or 1 is not divided. *)
Example getitem_bits :
  preprocess bits_1x2
  = Ok (IntArr (mk_ndarray [3; 1; 2]%nat [0; 1; 1; 0; 1; 0])).
Proof. vm_compute. reflexivity. Qed.

Example getitem_last :
  __getitem__ fs_pair (mk "in" "masks" ["a.png"] true) (-1)
  = __getitem__ fs_pair (mk "in" "masks" ["a.png"] true) 0.
Proof. vm_compute. reflexivity. Qed.

Example getitem_out_of_range :
  __getitem__ fs_pair (mk "in" "masks" ["a.png"] true) 1 = Raise IndexError.
Proof. vm_compute. reflexivity. Qed.

Example stem_two_dots : stem "a.b.png" = "a"%string.
Proof. reflexivity. Qed.

(** *** Files and lookups *)

Lemma Image_open_raises fs dir name e :
  Image_open fs dir name = Raise e -> e = FileNotFoundError.
Proof.
  unfold Image_open. destruct (fs !! dir) as [d|]; [|congruence].
  destruct (dir_lookup name d); congruence.
Qed.

Lemma Image_open_missing fs dir name :
  file_exists fs dir name = false -> Image_open fs dir name = Raise FileNotFoundError.
Proof.
  unfold file_exists, Image_open. destruct (fs !! dir) as [d|]; [|reflexivity].
  destruct (dir_lookup name d); [discriminate | reflexivity].
Qed.

Lemma dir_lookup_listed name (d : directory) :
  In name (map fst d) -> exists img, dir_lookup name d = Some img.
Proof.
  induction d as [|[n img] rest IH]; simpl; [tauto|].
  intros [Heq | Hin].
  - subst n. rewrite String.eqb_refl. eauto.
  - destruct (String.eqb n name); eauto.
Qed.

Lemma py_index_In {A : Type} (l : list A) index x :
  py_index l index = Ok x -> In x l.
Proof.
  unfold py_index.
  destruct ((0 <=? _) && (_ <? _)); [|discriminate].
  destruct (l !! _) as [y|] eqn:Hl; [|discriminate].
  intros [= <-]. apply list_elem_of_In. eapply list_elem_of_lookup_2; eauto.
Qed.

Lemma init_ok fs inputs masks tr (d : directory) :
  fs !! inputs = Some d ->
  __init__ fs inputs masks tr = Ok (mk inputs masks (map fst d) tr).
Proof. intros H. unfold __init__, listdir. rewrite H. reflexivity. Qed.

(** *** Length and missing files *)

(** C8: a dataset built over an existing inputs directory has as many samples
    as that directory has entries; the masks directory (its entries, or the
    lack of the directory itself) plays no part. *)
Theorem len_counts_input_files fs inputs masks tr (d : directory) :
  fs !! inputs = Some d ->
  exists ds, __init__ fs inputs masks tr = Ok ds /\ __len__ ds = length d.
Proof.
  intros H. eexists. split; [apply (init_ok _ _ _ _ _ H)|].
  unfold __len__; simpl. apply length_map.
Qed.

Lemma len_counts_input_files_witness :
  exists ds, __init__ fs_no_mask "in" "masks" true = Ok ds /\ __len__ ds = 1%nat.
Proof.
  apply (len_counts_input_files fs_no_mask "in" "masks" true [("a.png", rgb_1x1)]).
  vm_compute. reflexivity.
Defined.

(** C7, as the claim states it, fails: the masks directory has no mask for
    the input [a.b.png] (neither [a.b.png] nor any other file of stem
    [a.b]), and yet its fetch succeeds, served from the input [a.png] (four
    bands) and the mask [a.png]. *)
Lemma dotted_input_fetched_without_its_mask :
  __init__ fs_dotted "in" "masks" true
  = Ok (mk "in" "masks" ["a.b.png"; "a.png"] true)
  /\ py_index ["a.b.png"; "a.png"] 0 = Ok "a.b.png"%string
  /\ listdir fs_dotted "masks" = Ok ["a.png"%string]
  /\ file_exists fs_dotted "masks" "a.b.png" = false
  /\ __getitem__ fs_dotted (mk "in" "masks" ["a.b.png"; "a.png"] true) 0
     = Ok (mk_ndarray [4; 1; 1]%nat [scaled 255; scaled 128; scaled 0; scaled 255],
           mk_ndarray [2; 2]%nat [scaled 0; scaled 85; scaled 170; scaled 255]).
Proof. vm_compute. repeat split; reflexivity. Qed.

(** C7, amended: construction succeeds whatever the masks directory holds,
    and a fetch at an index for which the masks directory has no
    [<stem>.png], the stem being the listed name up to its first dot, raises
    FileNotFoundError. *)
Theorem missing_mask_raises_at_fetch fs inputs masks tr (d : directory) index name :
  fs !! inputs = Some d ->
  py_index (map fst d) index = Ok name ->
  file_exists fs masks (stem name +:+ ".png") = false ->
  exists ds, __init__ fs inputs masks tr = Ok ds
             /\ __getitem__ fs ds index = Raise FileNotFoundError.
Proof.
  intros Hd Hidx Hmask. eexists. split; [apply (init_ok _ _ _ _ _ Hd)|].
  unfold __getitem__; simpl. rewrite Hidx; simpl.
  destruct (Image_open fs inputs _) as [img|e] eqn:Hin; simpl.
  - rewrite (Image_open_missing _ _ _ Hmask). reflexivity.
  - rewrite (Image_open_raises _ _ _ _ Hin). reflexivity.
Qed.

Lemma missing_mask_raises_at_fetch_witness :
  exists ds, __init__ fs_no_mask "in" "masks" true = Ok ds
             /\ __getitem__ fs_no_mask ds 0 = Raise FileNotFoundError.
Proof.
  apply (missing_mask_raises_at_fetch fs_no_mask "in" "masks" true
           [("a.png", rgb_1x1)] 0 "a.png"); vm_compute; reflexivity.
Defined.

(** C10, as the claim states it, fails: the JPEG [a.jpg] lies next to
    [a.png], and its index is served from [a.png]. *)
Lemma non_png_input_served_by_sibling :
  __init__ fs_jpg_png "in" "masks" true = Ok (mk "in" "masks" ["a.jpg"; "a.png"] true)
  /\ py_index ["a.jpg"; "a.png"] 0 = Ok "a.jpg"%string
  /\ __getitem__ fs_jpg_png (mk "in" "masks" ["a.jpg"; "a.png"] true) 0
     = Ok (mk_ndarray [3; 1; 1]%nat [scaled 255; scaled 128; scaled 0],
           mk_ndarray [1; 1]%nat [scaled 255]).
Proof. vm_compute. repeat split; reflexivity. Qed.

(** C10, amended: both paths are [<stem>.png]; a listed file for which the
    inputs directory has no [<stem>.png] is counted by the length, exists,
    and yet its fetch raises FileNotFoundError. *)
Theorem input_without_png_raises fs inputs masks tr (d : directory) index name :
  fs !! inputs = Some d ->
  py_index (map fst d) index = Ok name ->
  file_exists fs inputs (stem name +:+ ".png") = false ->
  exists ds, __init__ fs inputs masks tr = Ok ds
             /\ In name (data ds)
             /\ (0 < __len__ ds)%nat
             /\ file_exists fs inputs name = true
             /\ __getitem__ fs ds index = Raise FileNotFoundError.
Proof.
  intros Hd Hidx Hpng. eexists. split; [apply (init_ok _ _ _ _ _ Hd)|].
  pose proof (py_index_In _ _ _ Hidx) as Hin. simpl.
  split; [exact Hin|]. split.
  - unfold __len__; simpl. destruct (map fst d); [destruct Hin | simpl; lia].
  - split.
    + unfold file_exists. rewrite Hd.
      destruct (dir_lookup_listed _ _ Hin) as [img ->]. reflexivity.
    + unfold __getitem__; simpl. rewrite Hidx; simpl.
      rewrite (Image_open_missing _ _ _ Hpng). reflexivity.
Qed.

Lemma input_without_png_raises_witness :
  exists ds, __init__ fs_jpg "in" "masks" true = Ok ds
             /\ In "a.jpg"%string (data ds)
             /\ (0 < __len__ ds)%nat
             /\ file_exists fs_jpg "in" "a.jpg" = true
             /\ __getitem__ fs_jpg ds 0 = Raise FileNotFoundError.
Proof.
  apply (input_without_png_raises fs_jpg "in" "masks" true
           [("a.jpg", rgb_1x1)] 0 "a.jpg"); vm_compute; reflexivity.
Defined.

(** *** Arrays *)

Lemma nth_Forall {A : Type} (P : A -> Prop) (l : list A) (d : A) (n : nat) :
  P d -> Forall P l -> P (nth n l d).
Proof.
  intros Hd Hl. revert n. induction Hl as [|x l Hx _ IH]; intros [|n]; simpl; auto.
Qed.

Lemma transpose_201_shape a tr :
  transpose_201 a = Ok tr ->
  exists h w c, shape a = [h; w; c] /\ shape tr = [c; h; w].
Proof.
  unfold transpose_201.
  destruct (shape a) as [|h [|w [|c [|]]]]; try discriminate.
  intros [= <-]. exists h, w, c. split; reflexivity.
Qed.

Lemma transpose_201_Forall (P : Z -> Prop) a tr :
  P 0 -> Forall P (buf a) -> transpose_201 a = Ok tr -> Forall P (buf tr).
Proof.
  intros H0 Ha. unfold transpose_201.
  destruct (shape a) as [|h [|w [|c [|]]]]; try discriminate.
  intros [= <-]. simpl.
  apply Forall_flat_map, Forall_forall. intros ci _.
  apply Forall_flat_map, Forall_forall. intros hi _.
  apply Forall_map, Forall_forall. intros wi _.
  apply nth_Forall; assumption.
Qed.

Lemma length_flat_map_const {A B : Type} (f : A -> list B) (l : list A) (k : nat) :
  (forall x, length (f x) = k) -> length (flat_map f l) = (length l * k)%nat.
Proof.
  intros Hf. induction l as [|x l IH]; simpl; [reflexivity|].
  rewrite length_app, Hf, IH. reflexivity.
Qed.

(** A transposed array always has as many elements as its shape says. *)
Lemma transpose_201_well_formed a tr :
  transpose_201 a = Ok tr -> well_formed tr.
Proof.
  unfold transpose_201, well_formed.
  destruct (shape a) as [|h [|w [|c [|]]]]; try discriminate.
  intros [= <-]. simpl.
  rewrite (length_flat_map_const _ _ (h * w)%nat).
  - rewrite length_seq. lia.
  - intros ci. rewrite (length_flat_map_const _ _ w).
    + rewrite length_seq. reflexivity.
    + intros hi. rewrite length_map, length_seq. reflexivity.
Qed.

Lemma fold_left_max_ge (l : list Z) (x : Z) :
  x <= fold_left Z.max l x /\ Forall (fun v => v <= fold_left Z.max l x) l.
Proof.
  revert x. induction l as [|y l IH]; intros x; simpl.
  - split; [lia | constructor].
  - destruct (IH (Z.max x y)) as [H1 H2]. split; [lia|].
    constructor; [lia | exact H2].
Qed.

Lemma array_max_ge (l : list Z) (m : Z) :
  array_max l = Ok m -> Forall (fun v => v <= m) l.
Proof.
  destruct l as [|x rest]; simpl; [discriminate|].
  intros [= <-]. destruct (fold_left_max_ge rest x) as [H1 H2].
  constructor; assumption.
Qed.

(** *** Bytes and the unit interval *)

Lemma byte_to_int_range (b : byte) : 0 <= byte_to_int b <= 255.
Proof.
  unfold byte_to_int. pose proof (Byte.to_N_bounded b). lia.
Qed.

Lemma np_array_bands_range h w c px :
  Forall (fun v => 0 <= v <= 255) (buf (np_array (Bands h w c px))).
Proof.
  cbn [np_array buf]. apply Forall_map, Forall_forall.
  intros b _. apply byte_to_int_range.
Qed.

(** An array of three axes comes from an image of several bands, so its
    elements are bytes. *)
Lemma three_axes_range img h w c :
  shape (np_array img) = [h; w; c] ->
  Forall (fun v => 0 <= v <= 255) (buf (np_array img)).
Proof.
  destruct img as [h' w' c' px | h' w' px]; [intros _ | discriminate].
  apply np_array_bands_range.
Qed.

Lemma below_checked (P : Z -> bool) (n : nat) :
  forallb P (map Z.of_nat (seq 0 n)) = true ->
  forall v, 0 <= v < Z.of_nat n -> P v = true.
Proof.
  intros H v Hv. rewrite forallb_forall in H. apply H.
  apply in_map_iff. exists (Z.to_nat v). split; [lia|].
  apply in_seq. lia.
Qed.

Lemma scaled_unit_interval (v : Z) :
  0 <= v <= 255 -> in_unit_interval (scaled v) = true.
Proof.
  intros Hv.
  apply (below_checked (fun v => in_unit_interval (scaled v)) 256);
    [vm_compute; reflexivity | lia].
Qed.

Lemma float32_of_int_unit_interval (v : Z) :
  0 <= v <= 1 -> in_unit_interval (float32_of_int v) = true.
Proof.
  intros Hv. assert (H : v = 0 \/ v = 1) by lia.
  destruct H as [-> | ->]; vm_compute; reflexivity.
Qed.

Lemma div255_unit_interval (l : list Z) :
  Forall (fun v => 0 <= v <= 255) l ->
  Forall (fun x => in_unit_interval x = true) (map scaled l).
Proof.
  intros H. apply Forall_map. eapply Forall_impl; [exact H|].
  intros v Hv. apply scaled_unit_interval. exact Hv.
Qed.

Lemma float32_of_int_unit_intervals (l : list Z) :
  Forall (fun v => 0 <= v <= 1) l ->
  Forall (fun x => in_unit_interval x = true) (map float32_of_int l).
Proof.
  intros H. apply Forall_map. eapply Forall_impl; [exact H|].
  intros v Hv. apply float32_of_int_unit_interval. exact Hv.
Qed.

(** What [preprocess] returns, once cast to a float tensor. *)
Lemma preprocess_spec image arr :
  preprocess image = Ok arr ->
  exists tr m,
    transpose_201 (np_array image) = Ok tr
    /\ array_max (buf tr) = Ok m
    /\ shape (to_float_tensor arr) = shape tr
    /\ buf (to_float_tensor arr)
       = (if 1 <? m then map scaled (buf tr) else map float32_of_int (buf tr)).
Proof.
  unfold preprocess.
  destruct (transpose_201 (np_array image)) as [tr|] eqn:Htr; simpl; [|discriminate].
  destruct (array_max (buf tr)) as [m|] eqn:Hm; simpl; [|discriminate].
  intros H. exists tr, m.
  split; [reflexivity|]. split; [exact Hm|].
  destruct (1 <? m); injection H as <-; (split; [reflexivity|]).
  - cbn [to_float_tensor div255 buf]. rewrite List.map_map. reflexivity.
  - reflexivity.
Qed.

(** The mask tensor of a loaded mask. *)
Lemma mask_tensor_buf mask :
  buf (to_float_tensor (FloatArr (div255 (np_array mask))))
  = map scaled (buf (np_array mask)).
Proof. cbn [to_float_tensor div255 buf]. rewrite List.map_map. reflexivity. Qed.

(** *** Samples *)

Lemma getitem_inv fs ds index im gt :
  __getitem__ fs ds index = Ok (im, gt) ->
  exists name image mask arr,
    py_index (data ds) index = Ok name
    /\ Image_open fs (inputs_dir ds) (stem name +:+ ".png") = Ok image
    /\ Image_open fs (masks_dir ds) (stem name +:+ ".png") = Ok mask
    /\ preprocess image = Ok arr
    /\ im = to_float_tensor arr
    /\ gt = to_float_tensor (FloatArr (div255 (np_array mask))).
Proof.
  unfold __getitem__.
  destruct (py_index (data ds) index) as [name|] eqn:Hn; simpl; [|discriminate].
  destruct (Image_open fs (inputs_dir ds) _) as [image|] eqn:Hi; simpl; [|discriminate].
  destruct (Image_open fs (masks_dir ds) _) as [mask|] eqn:Hm; simpl; [|discriminate].
  destruct (preprocess image) as [arr|] eqn:Hp; simpl; [|discriminate].
  intros [= <- <-]. exists name, image, mask, arr. auto 10.
Qed.

(** C5, as the claim states it, fails: an RGBA input gives four channels,
    and a mask of another size is returned as it is. *)
Lemma rgba_input_and_larger_mask :
  __getitem__ fs_rgba (mk "in" "masks" ["a.png"] true) 0
  = Ok (mk_ndarray [4; 1; 1]%nat [scaled 255; scaled 128; scaled 0; scaled 255],
        mk_ndarray [2; 2]%nat [scaled 0; scaled 85; scaled 170; scaled 255]).
Proof. vm_compute. reflexivity. Qed.

(** C5, amended: a returned image tensor is the loaded input array
    [(h, w, c)] moved to channel-first [(c, h, w)], so [(3, h, w)] for an
    RGB input; when the array's maximum exceeds 1 every element is the
    float32 of the float64 quotient by 255, and otherwise the float32 of the
    element itself; either way every value lies in [0, 1]. The mask tensor
    has the shape of the loaded mask array, which is the image's [(h, w)]
    for a single-channel mask of its size. *)
Theorem getitem_image_tensor fs ds index im gt :
  __getitem__ fs ds index = Ok (im, gt) ->
  exists name image mask tr h w c m,
    py_index (data ds) index = Ok name
    /\ Image_open fs (inputs_dir ds) (stem name +:+ ".png") = Ok image
    /\ Image_open fs (masks_dir ds) (stem name +:+ ".png") = Ok mask
    /\ shape (np_array image) = [h; w; c] /\ shape im = [c; h; w] /\ well_formed im
    /\ shape gt = shape (np_array mask)
    /\ (c = 3%nat -> shape (np_array mask) = [h; w] ->
        shape im = [3%nat; h; w] /\ shape gt = [h; w])
    /\ transpose_201 (np_array image) = Ok tr /\ array_max (buf tr) = Ok m
    /\ buf im = (if 1 <? m
                 then map (fun v => float32_of_float64
                                      (float64_div (float64_of_int v) (float64_of_int 255)))
                          (buf tr)
                 else map float32_of_int (buf tr))
    /\ Forall (fun x => in_unit_interval x = true) (buf im).
Proof.
  intros H.
  destruct (getitem_inv _ _ _ _ _ H) as (name & image & mask & arr & Hn & Hi & Hm & Hp & -> & ->).
  destruct (preprocess_spec _ _ Hp) as (tr & m & Htr & Hmax & Hsh & Hbuf).
  destruct (transpose_201_shape _ _ Htr) as (h & w & c & Hs1 & Hs2).
  exists name, image, mask, tr, h, w, c, m.
  split; [exact Hn|]. split; [exact Hi|]. split; [exact Hm|]. split; [exact Hs1|].
  split; [congruence|]. split.
  { unfold well_formed. rewrite Hsh, Hbuf.
    pose proof (transpose_201_well_formed _ _ Htr) as Hwf. unfold well_formed in Hwf.
    destruct (1 <? m); rewrite length_map; exact Hwf. }
  split; [reflexivity|]. split.
  { intros -> Hmask. split; [congruence | exact Hmask]. }
  split; [exact Htr|]. split; [exact Hmax|]. split; [exact Hbuf|].
  rewrite Hbuf.
  assert (Htrb : Forall (fun v => 0 <= v <= 255) (buf tr)).
  { eapply transpose_201_Forall; [lia | exact (three_axes_range _ _ _ _ Hs1) | exact Htr]. }
  destruct (1 <? m) eqn:Hlt.
  - apply div255_unit_interval, Htrb.
  - apply float32_of_int_unit_intervals.
    apply Z.ltb_ge in Hlt. pose proof (array_max_ge _ _ Hmax) as Hle.
    apply Forall_forall. intros v Hv.
    rewrite Forall_forall in Htrb, Hle.
    specialize (Htrb v Hv). specialize (Hle v Hv). simpl in *. lia.
Qed.

Lemma getitem_image_tensor_witness :
  exists name image mask tr h w c m,
    py_index ["a.png"%string] 0 = Ok name
    /\ Image_open fs_2x2 "in" (stem name +:+ ".png") = Ok image
    /\ Image_open fs_2x2 "masks" (stem name +:+ ".png") = Ok mask
    /\ shape (np_array image) = [h; w; c]
    /\ shape im_2x2 = [c; h; w] /\ well_formed im_2x2
    /\ shape gt_2x2 = shape (np_array mask)
    /\ (c = 3%nat -> shape (np_array mask) = [h; w] ->
        shape im_2x2 = [3%nat; h; w] /\ shape gt_2x2 = [h; w])
    /\ transpose_201 (np_array image) = Ok tr /\ array_max (buf tr) = Ok m
    /\ buf im_2x2
       = (if 1 <? m
          then map (fun v => float32_of_float64
                               (float64_div (float64_of_int v) (float64_of_int 255)))
                   (buf tr)
          else map float32_of_int (buf tr))
    /\ Forall (fun x => in_unit_interval x = true) (buf im_2x2).
Proof.
  apply (getitem_image_tensor fs_2x2 (mk "in" "masks" ["a.png"] true) 0 im_2x2 gt_2x2).
  vm_compute. reflexivity.
Defined.

(** C6, as the claim states it, fails: a 16-bit mask pixel 65535 becomes
    65535/255 = 257. *)
Lemma mask_of_16_bits_exceeds_one :
  __getitem__ fs_grey16 (mk "in" "masks" ["a.png"] true) 0
  = Ok (mk_ndarray [3; 1; 1]%nat [scaled 255; scaled 128; scaled 0],
        mk_ndarray [1; 1]%nat [float32_of_int 257])
  /\ SFltb float32_one (float32_of_int 257) = true
  /\ in_unit_interval (float32_of_int 257) = false.
Proof. vm_compute. repeat split; reflexivity. Qed.

(** C6, amended: every element of a returned mask is the loaded mask pixel
    divided by 255 in float64 and rounded to float32, in the loaded order
    and shape; the values lie in [0, 1] when the mask pixels are 8-bit (0 to
    255). *)
Theorem getitem_mask_tensor fs ds index im gt :
  __getitem__ fs ds index = Ok (im, gt) ->
  exists name mask,
    py_index (data ds) index = Ok name
    /\ Image_open fs (masks_dir ds) (stem name +:+ ".png") = Ok mask
    /\ shape gt = shape (np_array mask)
    /\ buf gt = map (fun v => float32_of_float64
                                (float64_div (float64_of_int v) (float64_of_int 255)))
                    (buf (np_array mask))
    /\ (Forall (fun v => 0 <= v <= 255) (buf (np_array mask)) ->
        Forall (fun x => in_unit_interval x = true) (buf gt)).
Proof.
  intros H.
  destruct (getitem_inv _ _ _ _ _ H) as (name & image & mask & arr & Hn & Hi & Hm & Hp & -> & ->).
  exists name, mask. split; [exact Hn|]. split; [exact Hm|].
  split; [reflexivity|]. split; [apply mask_tensor_buf|].
  rewrite mask_tensor_buf. apply div255_unit_interval.
Qed.

Lemma getitem_mask_tensor_witness :
  exists name mask,
    py_index ["a.png"%string] 0 = Ok name
    /\ Image_open fs_2x2 "masks" (stem name +:+ ".png") = Ok mask
    /\ shape gt_2x2 = shape (np_array mask)
    /\ buf gt_2x2
       = map (fun v => float32_of_float64
                         (float64_div (float64_of_int v) (float64_of_int 255)))
             (buf (np_array mask))
    /\ (Forall (fun v => 0 <= v <= 255) (buf (np_array mask)) ->
        Forall (fun x => in_unit_interval x = true) (buf gt_2x2)).
Proof.
  apply (getitem_mask_tensor fs_2x2 (mk "in" "masks" ["a.png"] true) 0 im_2x2 gt_2x2).
  vm_compute. reflexivity.
Defined.

(** *** Indices *)

Lemma py_index_out_of_range {A : Type} (l : list A) index :
  index < - Z.of_nat (length l) \/ Z.of_nat (length l) <= index ->
  py_index l index = Raise IndexError.
Proof.
  intros H. unfold py_index.
  destruct (index <? 0) eqn:Hneg.
  - apply Z.ltb_lt in Hneg.
    replace (0 <=? index + Z.of_nat (length l)) with false; [reflexivity|].
    symmetry. apply Z.leb_gt. lia.
  - apply Z.ltb_ge in Hneg.
    replace (index <? Z.of_nat (length l)) with false;
      [rewrite andb_false_r; reflexivity|].
    symmetry. apply Z.ltb_ge. lia.
Qed.

Lemma py_index_in_range {A : Type} (l : list A) index :
  - Z.of_nat (length l) <= index < Z.of_nat (length l) ->
  exists x, py_index l index = Ok x.
Proof.
  intros H. unfold py_index.
  set (i := if index <? 0 then index + Z.of_nat (length l) else index).
  assert (Hi : 0 <= i < Z.of_nat (length l)).
  { unfold i. destruct (index <? 0) eqn:Hneg.
    - apply Z.ltb_lt in Hneg. lia.
    - apply Z.ltb_ge in Hneg. lia. }
  replace (0 <=? i) with true by (symmetry; apply Z.leb_le; lia).
  replace (i <? Z.of_nat (length l)) with true by (symmetry; apply Z.ltb_lt; lia).
  cbn [andb].
  destruct (l !! Z.to_nat i) as [x|] eqn:Hl; [eauto|].
  apply lookup_ge_None in Hl. lia.
Qed.

Lemma py_index_negative {A : Type} (l : list A) index :
  - Z.of_nat (length l) <= index < 0 ->
  py_index l index = py_index l (index + Z.of_nat (length l)).
Proof.
  intros H. unfold py_index.
  replace (index <? 0) with true by (symmetry; apply Z.ltb_lt; lia).
  replace (index + Z.of_nat (length l) <? 0) with false
    by (symmetry; apply Z.ltb_ge; lia).
  reflexivity.
Qed.

Lemma preprocess_raises image e : preprocess image = Raise e -> e = ValueError.
Proof.
  unfold preprocess.
  destruct (transpose_201 (np_array image)) as [tr|e1] eqn:Htr; cbn [bind].
  - destruct (array_max (buf tr)) as [m|e2] eqn:Hm; cbn [bind].
    + destruct (1 <? m); discriminate.
    + intros [= <-]. unfold array_max in Hm. destruct (buf tr); congruence.
  - intros [= <-]. unfold transpose_201 in Htr.
    destruct (shape (np_array image)) as [|h [|w [|c [|]]]]; congruence.
Qed.

(** X1: a fetch raises IndexError exactly when the index lies outside
    [-len, len), whatever the directories hold. *)
Theorem getitem_index_error_iff fs ds index :
  __getitem__ fs ds index = Raise IndexError
  <-> (index < - Z.of_nat (__len__ ds) \/ Z.of_nat (__len__ ds) <= index).
Proof.
  unfold __len__. split.
  - intros H.
    destruct (Z_lt_dec index (- Z.of_nat (length (data ds)))) as [|H1]; [left; assumption|].
    destruct (Z_le_dec (Z.of_nat (length (data ds))) index) as [|H2]; [right; assumption|].
    exfalso.
    destruct (py_index_in_range (data ds) index) as [name Hn]; [lia|].
    unfold __getitem__ in H. rewrite Hn in H. cbn [bind] in H.
    destruct (Image_open fs (inputs_dir ds) _) as [image|e] eqn:Hi; cbn [bind] in H.
    + destruct (Image_open fs (masks_dir ds) _) as [mask|e] eqn:Hm; cbn [bind] in H.
      * destruct (preprocess image) as [arr|e] eqn:Hp; cbn [bind] in H; [discriminate|].
        apply preprocess_raises in Hp. congruence.
      * apply Image_open_raises in Hm. congruence.
    + apply Image_open_raises in Hi. congruence.
  - intros H. unfold __getitem__.
    rewrite (py_index_out_of_range _ _ H). reflexivity.
Qed.

(** X2: a negative index in range fetches the sample counted from the end. *)
Theorem getitem_negative_index fs ds index :
  - Z.of_nat (__len__ ds) <= index < 0 ->
  __getitem__ fs ds index = __getitem__ fs ds (index + Z.of_nat (__len__ ds)).
Proof.
  intros H. unfold __getitem__, __len__ in *.
  rewrite (py_index_negative _ _ H). reflexivity.
Qed.

Lemma getitem_negative_index_witness :
  __getitem__ fs_jpg_png (mk "in" "masks" ["a.jpg"; "a.png"] true) (-2)
  = __getitem__ fs_jpg_png (mk "in" "masks" ["a.jpg"; "a.png"] true)
      (-2 + Z.of_nat (__len__ (mk "in" "masks" ["a.jpg"; "a.png"] true))).
Proof.
  apply (getitem_negative_index fs_jpg_png (mk "in" "masks" ["a.jpg"; "a.png"] true) (-2)).
  vm_compute. split; [discriminate | reflexivity].
Defined.

(** *** Stems *)

Lemma stem_append_png (s : string) : stem s = s -> stem (s +:+ ".png") = s.
Proof.
  induction s as [|c r IH]; [reflexivity|].
  change (stem (String c r +:+ ".png"))
    with (if Ascii.eqb c "." then EmptyString else String c (stem (r +:+ ".png"))).
  change (stem (String c r))
    with (if Ascii.eqb c "." then EmptyString else String c (stem r)).
  destruct (Ascii.eqb c "."); [discriminate|].
  intros [= H]. f_equal. exact (IH H).
Qed.

(** X5: a fetch depends on the listed name only through the text before
    its first dot: two indices whose names share it give the same result. *)
Theorem getitem_same_stem fs ds i j name_i name_j :
  py_index (data ds) i = Ok name_i ->
  py_index (data ds) j = Ok name_j ->
  stem name_i = stem name_j ->
  __getitem__ fs ds i = __getitem__ fs ds j.
Proof.
  intros Hi Hj Hs. unfold __getitem__.
  rewrite Hi, Hj. cbn [bind]. rewrite Hs. reflexivity.
Qed.

Lemma getitem_same_stem_witness :
  __getitem__ fs_jpg_png (mk "in" "masks" ["a.jpg"; "a.png"] true) 0
  = __getitem__ fs_jpg_png (mk "in" "masks" ["a.jpg"; "a.png"] true) 1.
Proof.
  apply (getitem_same_stem fs_jpg_png (mk "in" "masks" ["a.jpg"; "a.png"] true)
           0 1 "a.jpg" "a.png"); reflexivity.
Defined.

(** *** When preprocessing succeeds *)

Lemma transpose_201_buf_length a tr :
  transpose_201 a = Ok tr -> length (shape a) = 3%nat /\ length (buf tr) = size_of (shape a).
Proof.
  intros H. pose proof (transpose_201_well_formed _ _ H) as Hwf.
  destruct (transpose_201_shape _ _ H) as (h & w & c & Hs & Hs').
  unfold well_formed in Hwf. rewrite Hs' in Hwf. rewrite Hs, Hwf.
  split; [reflexivity|]. cbn. lia.
Qed.

Lemma preprocess_raises_cases image e :
  preprocess image = Raise e
  <-> e = ValueError
      /\ (length (shape (np_array image)) <> 3%nat
          \/ size_of (shape (np_array image)) = 0%nat).
Proof.
  split.
  - intros H. split; [exact (preprocess_raises _ _ H)|].
    unfold preprocess in H.
    destruct (transpose_201 (np_array image)) as [tr|e1] eqn:Htr; cbn [bind] in H.
    + right. destruct (transpose_201_buf_length _ _ Htr) as [_ Hlen].
      rewrite <- Hlen.
      destruct (buf tr) as [|x rest]; [reflexivity|].
      cbn [array_max bind] in H. destruct (1 <? _); discriminate.
    + left. unfold transpose_201 in Htr.
      destruct (shape (np_array image)) as [|h [|w [|c [|]]]]; cbn; congruence.
  - intros [-> H]. unfold preprocess.
    destruct (transpose_201 (np_array image)) as [tr|e1] eqn:Htr; cbn [bind].
    + destruct (transpose_201_buf_length _ _ Htr) as [H3 Hlen].
      destruct H as [H|H]; [congruence|].
      rewrite H in Hlen. destruct (buf tr); [reflexivity | discriminate].
    + pose proof Htr as Htr'. unfold transpose_201 in Htr'.
      destruct (shape (np_array image)) as [|h [|w [|c [|]]]]; congruence.
Qed.

(** X6: [preprocess] raises exactly on an array that has not three axes or
    has no element, and then ValueError. *)
Theorem preprocess_raises_iff image e :
  preprocess image = Raise e
  <-> e = ValueError
      /\ (length (shape (np_array image)) <> 3%nat
          \/ size_of (shape (np_array image)) = 0%nat).
Proof. apply preprocess_raises_cases. Qed.

(** X7: a listed PNG whose stem has no dot, with an input array of three
    axes and at least one element and a mask file of its name, is fetched
    without error: the image comes channel-first and the mask in the shape
    it was loaded. *)
Theorem getitem_matched_png fs ds index s image mask h w c :
  py_index (data ds) index = Ok (s +:+ ".png") ->
  stem s = s ->
  Image_open fs (inputs_dir ds) (s +:+ ".png") = Ok image ->
  Image_open fs (masks_dir ds) (s +:+ ".png") = Ok mask ->
  shape (np_array image) = [h; w; c] ->
  (0 < h * w * c)%nat ->
  exists im gt,
    __getitem__ fs ds index = Ok (im, gt)
    /\ shape im = [c; h; w]
    /\ gt = to_float_tensor (FloatArr (div255 (np_array mask))).
Proof.
  intros Hn Hs Hi Hm Hsh Hpos. unfold __getitem__.
  rewrite Hn. cbn [bind]. rewrite (stem_append_png _ Hs), Hi. cbn [bind].
  rewrite Hm. cbn [bind].
  destruct (preprocess image) as [arr|e] eqn:Hp; cbn [bind].
  - destruct (preprocess_spec _ _ Hp) as (tr & m & Htr & _ & Hshape & _).
    destruct (transpose_201_shape _ _ Htr) as (h' & w' & c' & H1 & H2).
    eexists _, _. split; [reflexivity|]. split; [|reflexivity].
    rewrite Hshape, H2. congruence.
  - apply preprocess_raises_cases in Hp. destruct Hp as [_ [Hp|Hp]].
    + rewrite Hsh in Hp. cbn in Hp. congruence.
    + rewrite Hsh in Hp. cbn in Hp. lia.
Qed.

Lemma getitem_matched_png_witness :
  exists im gt,
    __getitem__ fs_2x2 (mk "in" "masks" ["a.png"] true) 0 = Ok (im, gt)
    /\ shape im = [3; 2; 2]%nat
    /\ gt = to_float_tensor (FloatArr (div255 (np_array grey_2x2))).
Proof.
  apply (getitem_matched_png fs_2x2 (mk "in" "masks" ["a.png"] true) 0 "a"
           rgb_2x2 grey_2x2 2%nat 2%nat 3%nat);
    try reflexivity.
  cbn. lia.
Defined.

End BurnDataset.

(** ** The network, on tensor shapes *)

Module UNet.

(** [x.size()] of a 4-D tensor: batch, channels, height, width. *)
Record size : Type := mk_size {
  batch : Z;
  channels : Z;
  height : Z;
  width : Z
}.

(** The [torch.nn] modules the blocks are built from. Every module is
    created in training mode; of these, only batch normalisation behaves
    differently in evaluation mode, so only it carries the flag. *)
Inductive layer : Type :=
| Conv2d (in_channels out_channels kernel_size stride padding : Z)
| BatchNorm2d (num_features : Z) (training : bool)
| ReLU
| MaxPool2d (kernel_size stride : Z)
| Upsample (scale_factor : Z)
| ConvTranspose2d (in_channels out_channels kernel_size stride : Z).

(** Output lengths along one spatial axis, as the [torch.nn] documentation
    gives them (dilation 1, no output padding). *)
Definition conv_out (l k s p : Z) : Z := (l + 2 * p - (k - 1) - 1) / s + 1.
Definition pool_out (l k s : Z) : Z := (l - (k - 1) - 1) / s + 1.
Definition conv_transpose_out (l k s : Z) : Z := (l - 1) * s + (k - 1) + 1.

(** One module on the shape of its input, with the checks PyTorch makes at
    run time: a convolution needs its number of input channels and a padded
    map no smaller than its kernel; batch normalisation in training mode
    needs more than one value per channel (ValueError otherwise) and, in
    either mode, its number of features; pooling, upsampling and transposed
    convolution need a map that leaves at least one row and one column. *)
Definition layer_forward (m : layer) (x : size) : res size :=
  match m with
  | Conv2d cin cout k s p =>
      if (channels x =? cin) && (k <=? height x + 2 * p) && (k <=? width x + 2 * p)
      then Ok (mk_size (batch x) cout (conv_out (height x) k s p) (conv_out (width x) k s p))
      else Raise RuntimeError
  | BatchNorm2d c training =>
      if training && (batch x * height x * width x =? 1) then Raise ValueError
      else if channels x =? c then Ok x
      else Raise RuntimeError
  | ReLU => Ok x
  | MaxPool2d k s =>
      let h := pool_out (height x) k s in
      let w := pool_out (width x) k s in
      if (1 <=? h) && (1 <=? w)
      then Ok (mk_size (batch x) (channels x) h w)
      else Raise RuntimeError
  | Upsample f =>
      if (1 <=? height x) && (1 <=? width x)
      then Ok (mk_size (batch x) (channels x) (height x * f) (width x * f))
      else Raise RuntimeError
  | ConvTranspose2d cin cout k s =>
      if (channels x =? cin) && (1 <=? height x) && (1 <=? width x)
      then Ok (mk_size (batch x) cout
                 (conv_transpose_out (height x) k s) (conv_transpose_out (width x) k s))
      else Raise RuntimeError
  end.

(** [nn.Sequential] *)
Fixpoint Sequential (ms : list layer) (x : size) : res size :=
  match ms with
  | [] => Ok x
  | m :: rest => let* y := layer_forward m x in Sequential rest y
  end.

(** The borders [torchvision.transforms.functional.pad] reads from its
    [padding] argument: one number for all four, two for left/right and
    top/bottom, four for left, top, right and bottom in that order. *)
Record borders : Type := mk_borders {
  left : Z;
  top : Z;
  right : Z;
  bottom : Z
}.

Definition parse_pad_padding (padding : list Z) : res borders :=
  match padding with
  | [a] => Ok (mk_borders a a a a)
  | [a; b] => Ok (mk_borders a b a b)
  | [a; b; c; d] => Ok (mk_borders a b c d)
  | _ => Raise ValueError
  end.

(** [f.pad(x, padding)], with [f] the module [torchvision.transforms.functional]. *)
Definition f_pad (x : size) (padding : list Z) : res size :=
  let* p := parse_pad_padding padding in
  Ok (mk_size (batch x) (channels x)
        (height x + top p + bottom p) (width x + left p + right p)).

(** [torch.cat([a, b], dim=1)] *)
Definition torch_cat (a b : size) : res size :=
  if (batch a =? batch b) && (height a =? height b) && (width a =? width b)
  then Ok (mk_size (batch a) (channels a + channels b) (height a) (width a))
  else Raise RuntimeError.

Definition conv_bn_relu_twice (cin mid cout : Z) : list layer :=
  [ Conv2d cin mid 3 1 1; BatchNorm2d mid true; ReLU;
    Conv2d mid cout 3 1 1; BatchNorm2d cout true; ReLU ].

Definition DownConv (in_channels out_channels : Z) : list layer :=
  MaxPool2d 2 2 :: conv_bn_relu_twice in_channels out_channels out_channels.

Record UpConv_t : Type := mk_UpConv {
  up : layer;
  conv : list layer
}.

Definition UpConv (in_channels out_channels : Z) (bilinear : bool) : UpConv_t :=
  let mid_channels := in_channels / 2 in
  if bilinear
  then mk_UpConv (Upsample 2) (conv_bn_relu_twice in_channels mid_channels out_channels)
  else mk_UpConv (ConvTranspose2d in_channels (in_channels / 2) 2 2)
                 (conv_bn_relu_twice in_channels out_channels out_channels).

(** The list [UpConv.forward] hands to [f.pad]. *)
Definition alignment_padding (x1 x2 : size) : list Z :=
  let dif_h := height x2 - height x1 in
  let dif_w := width x2 - width x1 in
  [dif_w / 2; dif_w - dif_w / 2; dif_h / 2; dif_h - dif_h / 2].

Definition UpConv_forward (self : UpConv_t) (x1 x2 : size) : res size :=
  let* x1 := layer_forward (up self) x1 in
  let* x1 := f_pad x1 (alignment_padding x1 x2) in
  let* x := torch_cat x2 x1 in
  Sequential (conv self) x.

Definition DoubleConv (in_channels out_channels : Z) : list layer :=
  conv_bn_relu_twice in_channels out_channels out_channels.

Definition OutConv (in_channels out_channels : Z) : list layer :=
  [ Conv2d in_channels out_channels 1 1 0 ].

Record t : Type := mk {
  n_channels : Z;
  n_classes : Z;
  bilinear : bool;
  l1 : list layer;
  down1 : list layer;
  down2 : list layer;
  down3 : list layer;
  down4 : list layer;
  up1 : UpConv_t;
  up2 : UpConv_t;
  up3 : UpConv_t;
  up4 : UpConv_t;
  out : list layer
}.

Definition __init__ (n_channels n_classes : Z) (bilinear : bool) : t :=
  let factor := if bilinear then 2 else 1 in
  {| n_channels := n_channels;
     n_classes := n_classes;
     bilinear := bilinear;
     l1 := DoubleConv n_channels 64;
     down1 := DownConv 64 128;
     down2 := DownConv 128 256;
     down3 := DownConv 256 512;
     down4 := DownConv 512 (1024 / factor);
     up1 := UpConv 1024 (512 / factor) bilinear;
     up2 := UpConv 512 (256 / factor) bilinear;
     up3 := UpConv 256 (128 / factor) bilinear;
     up4 := UpConv 128 64 bilinear;
     out := OutConv 64 n_classes |}.

Definition forward (self : t) (x : size) : res size :=
  let* x1 := Sequential (l1 self) x in
  let* x2 := Sequential (down1 self) x1 in
  let* x3 := Sequential (down2 self) x2 in
  let* x4 := Sequential (down3 self) x3 in
  let* x5 := Sequential (down4 self) x4 in
  let* x := UpConv_forward (up1 self) x5 x4 in
  let* x := UpConv_forward (up2 self) x x3 in
  let* x := UpConv_forward (up3 self) x x2 in
  let* x := UpConv_forward (up4 self) x x1 in
  let* logits := Sequential (out self) x in
  Ok logits.

(** [nn.Module.train(mode)], inherited by every block: the mode is set on
    the module and on all its children. *)
Definition layer_train (mode : bool) (m : layer) : layer :=
  match m with
  | BatchNorm2d c _ => BatchNorm2d c mode
  | _ => m
  end.

Definition Sequential_train (mode : bool) (ms : list layer) : list layer :=
  map (layer_train mode) ms.

Definition UpConv_train (mode : bool) (self : UpConv_t) : UpConv_t :=
  mk_UpConv (layer_train mode (up self)) (Sequential_train mode (conv self)).

Definition train (mode : bool) (self : t) : t :=
  {| n_channels := n_channels self;
     n_classes := n_classes self;
     bilinear := bilinear self;
     l1 := Sequential_train mode (l1 self);
     down1 := Sequential_train mode (down1 self);
     down2 := Sequential_train mode (down2 self);
     down3 := Sequential_train mode (down3 self);
     down4 := Sequential_train mode (down4 self);
     up1 := UpConv_train mode (up1 self);
     up2 := UpConv_train mode (up2 self);
     up3 := UpConv_train mode (up3 self);
     up4 := UpConv_train mode (up4 self);
     out := Sequential_train mode (out self) |}.

(** [nn.Module.eval()] *)
Definition eval (self : t) : t := train false self.

Example forward_32x48 :
  forward (__init__ 3 3 true) (mk_size 4 3 32 48) = Ok (mk_size 4 3 32 48).
Proof. vm_compute. reflexivity. Qed.

Example forward_transposed_conv :
  forward (__init__ 3 5 false) (mk_size 2 3 16 16) = Ok (mk_size 2 5 16 16).
Proof. vm_compute. reflexivity. Qed.

(** A single 16 x 16 image reaches the bottleneck as one value per channel:
    accepted in evaluation mode only. *)
Example forward_single_16x16_eval :
  forward (eval (__init__ 3 5 false)) (mk_size 1 3 16 16) = Ok (mk_size 1 5 16 16).
Proof. vm_compute. reflexivity. Qed.

Example forward_single_16x32 :
  forward (__init__ 3 5 false) (mk_size 1 3 16 32) = Ok (mk_size 1 5 16 32).
Proof. vm_compute. reflexivity. Qed.

Example forward_one_channel_input :
  forward (__init__ 3 3 true) (mk_size 4 1 32 48) = Raise RuntimeError.
Proof. vm_compute. reflexivity. Qed.

Example forward_16x17 :
  forward (__init__ 3 3 true) (mk_size 2 3 16 17) = Raise RuntimeError.
Proof. vm_compute. reflexivity. Qed.

Example forward_17x16 :
  forward (__init__ 3 3 true) (mk_size 2 3 17 16) = Ok (mk_size 2 3 17 16).
Proof. vm_compute. reflexivity. Qed.

(** Fewer than 16 rows: the fourth pooling has nothing left. *)
Example forward_8x16 :
  forward (__init__ 3 3 true) (mk_size 2 3 8 16) = Raise RuntimeError.
Proof. vm_compute. reflexivity. Qed.

(** *** Layer by layer *)

Lemma conv_out_3_1_1 l : conv_out l 3 1 1 = l.
Proof. unfold conv_out. rewrite Z.div_1_r. lia. Qed.

Lemma conv_out_1_1_0 l : conv_out l 1 1 0 = l.
Proof. unfold conv_out. rewrite Z.div_1_r. lia. Qed.

Lemma pool_out_2_2 l : pool_out l 2 2 = l / 2.
Proof. unfold pool_out. Z.div_mod_to_equations. lia. Qed.

Lemma conv_transpose_out_2_2 l : conv_transpose_out l 2 2 = l * 2.
Proof. unfold conv_transpose_out. lia. Qed.

Ltac decide_leb :=
  repeat match goal with
  | |- context [?a <=? ?b] =>
      replace (a <=? b) with true by (symmetry; apply Z.leb_le; lia)
  end.

Lemma Conv2d_3_forward cin cout N H W :
  1 <= H -> 1 <= W ->
  layer_forward (Conv2d cin cout 3 1 1) (mk_size N cin H W) = Ok (mk_size N cout H W).
Proof.
  intros HH HW. unfold layer_forward. cbn [channels batch height width].
  rewrite Z.eqb_refl. decide_leb. cbn [andb].
  rewrite !conv_out_3_1_1. reflexivity.
Qed.

Lemma Conv2d_1_forward cin cout N H W :
  1 <= H -> 1 <= W ->
  layer_forward (Conv2d cin cout 1 1 0) (mk_size N cin H W) = Ok (mk_size N cout H W).
Proof.
  intros HH HW. unfold layer_forward. cbn [channels batch height width].
  rewrite Z.eqb_refl. decide_leb. cbn [andb].
  rewrite !conv_out_1_1_0. reflexivity.
Qed.

Lemma Conv2d_wrong_channels cin cout k s p x :
  channels x <> cin ->
  layer_forward (Conv2d cin cout k s p) x = Raise RuntimeError.
Proof.
  intros H. unfold layer_forward.
  replace (channels x =? cin) with false by (symmetry; apply Z.eqb_neq; exact H).
  reflexivity.
Qed.

Lemma BatchNorm2d_forward mode c N H W :
  (mode = true -> N * H * W <> 1) ->
  layer_forward (BatchNorm2d c mode) (mk_size N c H W) = Ok (mk_size N c H W).
Proof.
  intros Hm. unfold layer_forward. cbn [channels batch height width].
  destruct mode; cbn [andb].
  - replace (N * H * W =? 1) with false
      by (symmetry; apply Z.eqb_neq; apply Hm; reflexivity).
    rewrite Z.eqb_refl. reflexivity.
  - rewrite Z.eqb_refl. reflexivity.
Qed.

Lemma MaxPool2d_forward N c H W :
  2 <= H -> 2 <= W ->
  layer_forward (MaxPool2d 2 2) (mk_size N c H W) = Ok (mk_size N c (H / 2) (W / 2)).
Proof.
  intros HH HW. unfold layer_forward. cbn [channels batch height width]. cbv zeta.
  rewrite !pool_out_2_2.
  replace (1 <=? H / 2) with true
    by (symmetry; apply Z.leb_le; Z.div_mod_to_equations; lia).
  replace (1 <=? W / 2) with true
    by (symmetry; apply Z.leb_le; Z.div_mod_to_equations; lia).
  reflexivity.
Qed.

Lemma ReLU_forward x : layer_forward ReLU x = Ok x.
Proof. reflexivity. Qed.

(** More than one value per channel. *)
Lemma several_values N H W : 1 <= N -> 2 <= H -> 1 <= W -> N * H * W <> 1.
Proof. intros HN HH HW. nia. Qed.

Lemma several_in_batch N H W : 2 <= N -> 1 <= H -> 1 <= W -> N * H * W <> 1.
Proof. intros HN HH HW. nia. Qed.

(** *** Block by block *)

Lemma conv_bn_relu_twice_forward mode cin mid cout N H W :
  1 <= H -> 1 <= W -> (mode = true -> N * H * W <> 1) ->
  Sequential (Sequential_train mode (conv_bn_relu_twice cin mid cout)) (mk_size N cin H W)
  = Ok (mk_size N cout H W).
Proof.
  intros HH HW Hm. unfold conv_bn_relu_twice, Sequential_train.
  cbn [map layer_train Sequential].
  rewrite Conv2d_3_forward by assumption. cbn [bind].
  rewrite BatchNorm2d_forward by assumption. cbn [bind].
  rewrite ReLU_forward. cbn [bind].
  rewrite Conv2d_3_forward by assumption. cbn [bind].
  rewrite BatchNorm2d_forward by assumption. cbn [bind].
  reflexivity.
Qed.

Lemma Sequential_train_true cin mid cout :
  Sequential_train true (conv_bn_relu_twice cin mid cout) = conv_bn_relu_twice cin mid cout.
Proof. reflexivity. Qed.

Lemma DoubleConv_forward mode cin cout N H W :
  1 <= H -> 1 <= W -> (mode = true -> N * H * W <> 1) ->
  Sequential (Sequential_train mode (DoubleConv cin cout)) (mk_size N cin H W)
  = Ok (mk_size N cout H W).
Proof. apply conv_bn_relu_twice_forward. Qed.

Lemma DownConv_forward mode cin cout N H W :
  2 <= H -> 2 <= W -> (mode = true -> N * (H / 2) * (W / 2) <> 1) ->
  Sequential (Sequential_train mode (DownConv cin cout)) (mk_size N cin H W)
  = Ok (mk_size N cout (H / 2) (W / 2)).
Proof.
  intros HH HW Hm. unfold DownConv, Sequential_train.
  cbn [map layer_train Sequential].
  rewrite MaxPool2d_forward by assumption. cbn [bind].
  apply conv_bn_relu_twice_forward;
    [Z.div_mod_to_equations; lia | Z.div_mod_to_equations; lia | exact Hm].
Qed.

Lemma OutConv_forward mode cin cout N H W :
  1 <= H -> 1 <= W ->
  Sequential (Sequential_train mode (OutConv cin cout)) (mk_size N cin H W)
  = Ok (mk_size N cout H W).
Proof.
  intros HH HW. unfold OutConv, Sequential_train. cbn [map layer_train Sequential].
  rewrite Conv2d_1_forward by assumption. reflexivity.
Qed.

(** No padding is needed when the skip map is exactly twice the lower map. *)
Lemma alignment_padding_none N c h w N' c' :
  alignment_padding (mk_size N c h w) (mk_size N' c' h w) = [0; 0; 0; 0].
Proof.
  unfold alignment_padding. cbn [height width].
  rewrite !Z.sub_diag. reflexivity.
Qed.

Lemma f_pad_none x : f_pad x [0; 0; 0; 0] = Ok x.
Proof.
  destruct x as [N c h w]. unfold f_pad. cbn.
  rewrite !Z.add_0_r. reflexivity.
Qed.

(** *** Alignment of the upsampled map *)

(** How the four numbers of [alignment_padding] are read: the ceiling half
    of the width difference goes to the top and the floor half of the height
    difference to the right. *)
Lemma alignment_padding_borders x1 x2 :
  parse_pad_padding (alignment_padding x1 x2)
  = Ok {| left := (width x2 - width x1) / 2;
          top := (width x2 - width x1) - (width x2 - width x1) / 2;
          right := (height x2 - height x1) / 2;
          bottom := (height x2 - height x1) - (height x2 - height x1) / 2 |}.
Proof. reflexivity. Qed.

(** The case the specification works out: one row missing, same width. *)
Lemma one_row_missing N c N' c' H W :
  parse_pad_padding (alignment_padding (mk_size N c (H - 1) W) (mk_size N' c' H W))
  = Ok {| left := 0; top := 0; right := 0; bottom := 1 |}
  /\ f_pad (mk_size N c (H - 1) W)
           (alignment_padding (mk_size N c (H - 1) W) (mk_size N' c' H W))
     = Ok (mk_size N c H W).
Proof.
  unfold f_pad. rewrite alignment_padding_borders. cbn [height width bind top bottom left right batch channels].
  replace (W - W) with 0 by lia. replace (H - (H - 1)) with 1 by lia.
  change (0 / 2) with 0. change (1 / 2) with 0. cbn [Z.sub Z.opp].
  split; [reflexivity|]. f_equal. f_equal; lia.
Qed.

(** C2 at a failing input: the skip map is 4 x 5 and the upsampled map
    4 x 4. The missing column is added as a row on top (5 x 4), and the
    concatenation with the skip map raises; floor on the left and ceiling on
    the right would have given 4 x 5. *)
Theorem one_column_missing_pads_a_row :
  layer_forward (up (UpConv 128 64 true)) (mk_size 1 64 2 2) = Ok (mk_size 1 64 4 4)
  /\ parse_pad_padding (alignment_padding (mk_size 1 64 4 4) (mk_size 1 64 4 5))
     = Ok {| left := 0; top := 1; right := 0; bottom := 0 |}
  /\ f_pad (mk_size 1 64 4 4) (alignment_padding (mk_size 1 64 4 4) (mk_size 1 64 4 5))
     = Ok (mk_size 1 64 5 4)
  /\ UpConv_forward (UpConv 128 64 true) (mk_size 1 64 2 2) (mk_size 1 64 4 5)
     = Raise RuntimeError.
Proof. vm_compute. repeat split; reflexivity. Qed.

(** *** Blocks on any input *)

Lemma conv_bn_relu_twice_wrong_channels mode cin mid cout x :
  channels x <> cin ->
  Sequential (Sequential_train mode (conv_bn_relu_twice cin mid cout)) x
  = Raise RuntimeError.
Proof.
  intros H. unfold conv_bn_relu_twice, Sequential_train.
  cbn [map layer_train Sequential].
  rewrite Conv2d_wrong_channels by exact H. reflexivity.
Qed.

Lemma DownConv_forward_cases mode cin cout x :
  2 <= height x -> 2 <= width x ->
  (mode = true -> batch x * (height x / 2) * (width x / 2) <> 1) ->
  Sequential (Sequential_train mode (DownConv cin cout)) x
  = if channels x =? cin
    then Ok (mk_size (batch x) cout (height x / 2) (width x / 2))
    else Raise RuntimeError.
Proof.
  destruct x as [N c H W]. cbn [channels batch height width]. intros HH HW Hm.
  destruct (c =? cin) eqn:Hc.
  - apply Z.eqb_eq in Hc. subst c. apply DownConv_forward; assumption.
  - apply Z.eqb_neq in Hc. unfold DownConv, Sequential_train.
    cbn [map layer_train Sequential].
    rewrite MaxPool2d_forward by assumption. cbn [bind].
    apply (conv_bn_relu_twice_wrong_channels mode). exact Hc.
Qed.

(** X9: on a batch of at least two maps of at least two rows and columns,
    an encoder block halves height and width, rounding down, and sets the
    channel count; on an input with another channel count than it was built
    for it raises. *)
Theorem DownConv_halves cin cout x :
  2 <= batch x -> 2 <= height x -> 2 <= width x ->
  Sequential (DownConv cin cout) x
  = if channels x =? cin
    then Ok (mk_size (batch x) cout (height x / 2) (width x / 2))
    else Raise RuntimeError.
Proof.
  intros HN HH HW. apply (DownConv_forward_cases true); [assumption ..|].
  intros _. apply several_in_batch; [assumption | Z.div_mod_to_equations; lia ..].
Qed.

Lemma DownConv_halves_witness :
  Sequential (DownConv 64 128) (mk_size 2 64 5 7) = Ok (mk_size 2 128 2 3).
Proof.
  apply (DownConv_halves 64 128 (mk_size 2 64 5 7)); cbn [batch height width]; lia.
Defined.

(** *** The decoder block on any pair of maps *)

Lemma f_pad_alignment x1 x2 :
  f_pad x1 (alignment_padding x1 x2)
  = Ok (mk_size (batch x1) (channels x1)
          (height x1 + ((width x2 - width x1) - (width x2 - width x1) / 2)
           + ((height x2 - height x1) - (height x2 - height x1) / 2))
          (width x1 + (width x2 - width x1) / 2 + (height x2 - height x1) / 2)).
Proof. reflexivity. Qed.

Lemma aligned_iff (h1 w1 h2 w2 : Z) :
  let dif_h := h2 - h1 in
  let dif_w := w2 - w1 in
  (h2 =? h1 + (dif_w - dif_w / 2) + (dif_h - dif_h / 2))
  && (w2 =? w1 + dif_w / 2 + dif_h / 2)
  = (dif_w - dif_w / 2 =? dif_h / 2).
Proof.
  cbv zeta.
  destruct (w2 - w1 - (w2 - w1) / 2 =? (h2 - h1) / 2) eqn:E.
  - apply Z.eqb_eq in E. apply andb_true_iff. split; apply Z.eqb_eq; lia.
  - apply Z.eqb_neq in E. apply andb_false_iff. left. apply Z.eqb_neq. lia.
Qed.

Lemma UpConv_forward_cases (mode : bool) (cin cout : Z) (bil : bool)
    (N c1 c2 h1 w1 h2 w2 : Z) :
  (if bil then c2 + c1 = cin else c1 = cin /\ c2 + cin / 2 = cin) ->
  1 <= N -> 0 < h1 -> 0 < w1 -> h1 * 2 <= h2 -> w1 * 2 <= w2 ->
  UpConv_forward (UpConv_train mode (UpConv cin cout bil))
    (mk_size N c1 h1 w1) (mk_size N c2 h2 w2)
  = let dif_h := h2 - h1 * 2 in
    let dif_w := w2 - w1 * 2 in
    if dif_w - dif_w / 2 =? dif_h / 2
    then Ok (mk_size N cout h2 w2)
    else Raise RuntimeError.
Proof.
  intros Hc HN Hh1 Hw1 Hh2 Hw2. cbv zeta. rewrite <- aligned_iff.
  unfold UpConv_forward.
  assert (Hup : exists c1',
             layer_forward (up (UpConv_train mode (UpConv cin cout bil)))
               (mk_size N c1 h1 w1)
             = Ok (mk_size N c1' (h1 * 2) (w1 * 2))
             /\ c2 + c1' = cin).
  { destruct bil; unfold UpConv, UpConv_train;
      cbn [up layer_train]; unfold layer_forward; cbn [channels batch height width].
    - exists c1. decide_leb. split; [reflexivity | exact Hc].
    - destruct Hc as [-> Hc]. rewrite Z.eqb_refl, !conv_transpose_out_2_2.
      decide_leb. eauto. }
  destruct Hup as (c1' & -> & Hsum). cbn [bind].
  rewrite f_pad_alignment. cbn [bind batch channels height width].
  unfold torch_cat. cbn [batch channels height width].
  rewrite Z.eqb_refl. cbn [andb].
  destruct ((h2 =? _) && (w2 =? _)) eqn:E; [|reflexivity].
  cbn [bind]. rewrite Hsum.
  destruct bil; unfold UpConv, UpConv_train; cbn [conv];
    (apply conv_bn_relu_twice_forward;
     [lia | lia | intros _; apply several_values; lia]).
Qed.

Lemma UpConv_train_true cin cout bil :
  UpConv_train true (UpConv cin cout bil) = UpConv cin cout bil.
Proof. destruct bil; reflexivity. Qed.

(** X10: given the channel counts it was built for, equal batch sizes of at
    least two and a skip map no smaller than the upsampled map, a decoder
    block returns a map of the skip map's size exactly when the ceiling half
    of the width difference equals the floor half of the height difference;
    otherwise the concatenation raises. *)
Theorem UpConv_succeeds_iff (cin cout : Z) (bil : bool) (N c1 c2 h1 w1 h2 w2 : Z) :
  (if bil then c2 + c1 = cin else c1 = cin /\ c2 + cin / 2 = cin) ->
  2 <= N -> 0 < h1 -> 0 < w1 -> h1 * 2 <= h2 -> w1 * 2 <= w2 ->
  UpConv_forward (UpConv cin cout bil) (mk_size N c1 h1 w1) (mk_size N c2 h2 w2)
  = let dif_h := h2 - h1 * 2 in
    let dif_w := w2 - w1 * 2 in
    if dif_w - dif_w / 2 =? dif_h / 2
    then Ok (mk_size N cout h2 w2)
    else Raise RuntimeError.
Proof.
  intros Hc HN Hh1 Hw1 Hh2 Hw2. rewrite <- (UpConv_train_true cin cout bil).
  apply UpConv_forward_cases; [exact Hc | lia | assumption ..].
Qed.

Lemma UpConv_succeeds_iff_witness :
  UpConv_forward (UpConv 128 64 true) (mk_size 2 64 2 2) (mk_size 2 64 6 5)
  = Ok (mk_size 2 64 6 5).
Proof.
  apply (UpConv_succeeds_iff 128 64 true 2 64 64 2 2 6 5); [reflexivity | lia ..].
Defined.

(** *** The network on any input of at least 16 rows and columns *)

Lemma train_true n_channels n_classes bil :
  train true (__init__ n_channels n_classes bil) = __init__ n_channels n_classes bil.
Proof. destruct bil; reflexivity. Qed.

(** The network from the four decoder blocks on: the encoder halves the
    map four times. *)
Lemma forward_by_blocks (mode : bool) (n_channels n_classes : Z) (bil : bool)
    (N H W : Z) :
  1 <= N -> 16 <= H -> 16 <= W ->
  (mode = true -> N * (H / 2 / 2 / 2 / 2) * (W / 2 / 2 / 2 / 2) <> 1) ->
  forward (train mode (__init__ n_channels n_classes bil)) (mk_size N n_channels H W)
  = let self := train mode (__init__ n_channels n_classes bil) in
    let x1 := mk_size N 64 H W in
    let x2 := mk_size N 128 (H / 2) (W / 2) in
    let x3 := mk_size N 256 (H / 2 / 2) (W / 2 / 2) in
    let x4 := mk_size N 512 (H / 2 / 2 / 2) (W / 2 / 2 / 2) in
    let x5 := mk_size N (1024 / (if bil then 2 else 1))
                (H / 2 / 2 / 2 / 2) (W / 2 / 2 / 2 / 2) in
    let* x := UpConv_forward (up1 self) x5 x4 in
    let* x := UpConv_forward (up2 self) x x3 in
    let* x := UpConv_forward (up3 self) x x2 in
    let* x := UpConv_forward (up4 self) x x1 in
    let* logits := Sequential (out self) x in
    Ok logits.
Proof.
  intros HN HH HW Hm. cbv zeta. unfold forward.
  unfold __init__, train. cbn [l1 down1 down2 down3 down4 up1 up2 up3 up4 out].
  rewrite DoubleConv_forward
    by (first [lia | intros _; apply several_values; lia]).
  cbn [bind].
  rewrite DownConv_forward
    by (first [lia | intros _; apply several_values; Z.div_mod_to_equations; lia]).
  cbn [bind].
  rewrite DownConv_forward
    by (first [ Z.div_mod_to_equations; lia
              | intros _; apply several_values; Z.div_mod_to_equations; lia]).
  cbn [bind].
  rewrite DownConv_forward
    by (first [ Z.div_mod_to_equations; lia
              | intros _; apply several_values; Z.div_mod_to_equations; lia]).
  cbn [bind].
  rewrite DownConv_forward
    by (first [ Z.div_mod_to_equations; lia | exact Hm ]).
  cbn [bind].
  reflexivity.
Qed.

Ltac decide_alignment :=
  match goal with
  | |- context [if ?a =? ?b then _ else _] =>
      first
        [ replace (a =? b) with true
            by (symmetry; apply Z.eqb_eq; Z.div_mod_to_equations; lia)
        | replace (a =? b) with false
            by (symmetry; apply Z.eqb_neq; Z.div_mod_to_equations; lia) ]
  end.

Ltac decoder_step :=
  rewrite UpConv_forward_cases
    by (first [reflexivity | split; reflexivity | (Z.div_mod_to_equations; lia)]);
  cbv zeta; decide_alignment; cbn [bind].

Lemma sixteenth (l : Z) : l / 2 / 2 / 2 / 2 = l / 16.
Proof. rewrite !Z.div_div by lia. reflexivity. Qed.

Lemma forward_multiple_of_16 mode n_channels n_classes bil N H W :
  1 <= N -> 0 < H -> 0 < W ->
  (16 | H) -> (16 | W) ->
  (mode = true -> 1 < N * (H / 16) * (W / 16)) ->
  forward (train mode (__init__ n_channels n_classes bil)) (mk_size N n_channels H W)
  = Ok (mk_size N n_classes H W).
Proof.
  intros HN HH HW [h ->] [w ->] Hm.
  rewrite forward_by_blocks;
    [ | lia | lia | lia | rewrite !sixteenth; intros Ht; specialize (Hm Ht); lia ].
  cbv zeta. unfold __init__, train. cbn [up1 up2 up3 up4 out].
  destruct bil; do 4 decoder_step;
    (rewrite OutConv_forward by lia); reflexivity.
Qed.

(** C1, as the claim states it, fails: a freshly built network is in
    training mode, and a single 16 x 16 image reaches the last encoder
    block as one value per channel, which batch normalisation rejects; and
    an empty image, whose height and width 0 are divisible by 16, is
    rejected by the first convolution. *)
Lemma single_16x16_image_raises :
  forward (__init__ 3 3 true) (mk_size 1 3 16 16) = Raise ValueError
  /\ forward (__init__ 3 3 false) (mk_size 1 3 16 16) = Raise ValueError
  /\ forward (__init__ 3 3 true) (mk_size 1 3 0 0) = Raise RuntimeError.
Proof. vm_compute. repeat split; reflexivity. Qed.

(** C1, amended: on an input of shape (N, 3, H, W) with N at least 1 and H
    and W positive and divisible by 16, the network built for 3 input
    channels returns logits of shape (N, n_classes, H, W), with either kind
    of upsampling: in evaluation mode always, and in training mode when the
    smallest map holds more than one value per channel, that is for every
    input but a single 16 x 16 image. *)
Theorem forward_keeps_spatial_size n_classes bilinear mode N H W :
  1 <= N -> 0 < H -> 0 < W ->
  (16 | H) -> (16 | W) ->
  (mode = true -> 1 < N * (H / 16) * (W / 16)) ->
  forward (train mode (__init__ 3 n_classes bilinear)) (mk_size N 3 H W)
  = Ok (mk_size N n_classes H W).
Proof.
  intros HN HH HW [h ->] [w ->] Hm.
  rewrite forward_by_blocks;
    [ | lia | lia | lia | rewrite !sixteenth; intros Ht; specialize (Hm Ht); lia ].
  cbv zeta. unfold __init__, train. cbn [up1 up2 up3 up4 out].
  destruct bilinear; do 4 decoder_step;
    (rewrite OutConv_forward by lia); reflexivity.
Qed.

Lemma forward_keeps_spatial_size_witness :
  forward (train true (__init__ 3 2 false)) (mk_size 1 3 16 32) = Ok (mk_size 1 2 16 32).
Proof.
  apply (forward_keeps_spatial_size 2 false true 1 16 32);
    [ lia | lia | lia | exists 1; reflexivity | exists 2; reflexivity
    | intros _; reflexivity ].
Defined.

(** X11: a network built for any number of input channels keeps the spatial
    size of a batch of at least two inputs with that many channels and
    positive height and width divisible by 16, and returns [n_classes]
    channels. *)
Theorem forward_keeps_size_any_channels n_channels n_classes bil N H W :
  2 <= N -> 0 < H -> 0 < W ->
  (16 | H) -> (16 | W) ->
  forward (__init__ n_channels n_classes bil) (mk_size N n_channels H W)
  = Ok (mk_size N n_classes H W).
Proof.
  intros HN HH HW HdH HdW. rewrite <- (train_true n_channels n_classes bil).
  apply forward_multiple_of_16; [lia | assumption ..|].
  intros _. destruct HdH as [h ->], HdW as [w ->].
  rewrite !Z.div_mul by lia. nia.
Qed.

Lemma forward_keeps_size_any_channels_witness :
  forward (__init__ 1 2 false) (mk_size 4 1 16 32) = Ok (mk_size 4 2 16 32).
Proof.
  apply (forward_keeps_size_any_channels 1 2 false 4 16 32); try lia.
  - exists 1. reflexivity.
  - exists 2. reflexivity.
Defined.

(** X12: an input with another number of channels than the network was
    built for is rejected by the first convolution, whatever its size. *)
Theorem forward_wrong_channels n_channels n_classes bil x :
  channels x <> n_channels ->
  forward (__init__ n_channels n_classes bil) x = Raise RuntimeError.
Proof.
  intros H. unfold forward, __init__. cbn [l1]. unfold DoubleConv.
  rewrite <- (Sequential_train_true n_channels 64 64).
  rewrite (conv_bn_relu_twice_wrong_channels _ _ _ _ _ H). reflexivity.
Qed.

Lemma forward_wrong_channels_witness :
  forward (__init__ 3 3 true) (mk_size 4 1 32 48) = Raise RuntimeError.
Proof.
  apply (forward_wrong_channels 3 3 true (mk_size 4 1 32 48)). discriminate.
Defined.

(** X13: a batch of at least two inputs one column wider than a positive
    multiple of 16, with a positive height divisible by 16, is rejected: the
    last decoder block pads the missing column as a row and its
    concatenation raises. *)
Theorem forward_extra_column_raises n_channels n_classes bil N H W :
  2 <= N -> 0 < H -> 16 < W ->
  (16 | H) -> (16 | W - 1) ->
  forward (__init__ n_channels n_classes bil) (mk_size N n_channels H W)
  = Raise RuntimeError.
Proof.
  intros HN HH HW [h ->] [w Hw]. replace W with (w * 16 + 1) in * by lia.
  rewrite <- (train_true n_channels n_classes bil).
  rewrite forward_by_blocks;
    [ | lia | lia | lia
      | intros _; apply several_in_batch; [lia | Z.div_mod_to_equations; lia ..] ].
  cbv zeta. unfold __init__, train. cbn [up1 up2 up3 up4 out].
  destruct bil; do 4 decoder_step; reflexivity.
Qed.

Lemma forward_extra_column_raises_witness :
  forward (__init__ 3 3 true) (mk_size 2 3 16 17) = Raise RuntimeError.
Proof.
  apply (forward_extra_column_raises 3 3 true 2 16 17); try lia.
  - exists 1. reflexivity.
  - exists 1. reflexivity.
Defined.

(** X14: a batch of at least two inputs one row taller than a positive
    multiple of 16, with a positive width divisible by 16, is accepted and
    keeps its size: the missing row is padded at the bottom. *)
Theorem forward_extra_row_succeeds n_channels n_classes bil N H W :
  2 <= N -> 16 < H -> 0 < W ->
  (16 | H - 1) -> (16 | W) ->
  forward (__init__ n_channels n_classes bil) (mk_size N n_channels H W)
  = Ok (mk_size N n_classes H W).
Proof.
  intros HN HH HW [h Hh] [w ->]. replace H with (h * 16 + 1) in * by lia.
  rewrite <- (train_true n_channels n_classes bil).
  rewrite forward_by_blocks;
    [ | lia | lia | lia
      | intros _; apply several_in_batch; [lia | Z.div_mod_to_equations; lia ..] ].
  cbv zeta. unfold __init__, train. cbn [up1 up2 up3 up4 out].
  destruct bil; do 4 decoder_step;
    (rewrite OutConv_forward by lia); reflexivity.
Qed.

Lemma forward_extra_row_succeeds_witness :
  forward (__init__ 3 3 true) (mk_size 2 3 17 16) = Ok (mk_size 2 3 17 16).
Proof.
  apply (forward_extra_row_succeeds 3 3 true 2 17 16); try lia.
  - exists 1. reflexivity.
  - exists 1. reflexivity.
Defined.

End UNet.

(** ** The training loop *)

Module Train.

(** The gradient of every parameter after [loss.backward()]: [None] for a
    parameter without gradient, otherwise the float32 elements of [p.grad]. *)
Abbreviation gradients := (list (option (list spec_float))).

(** The clip value 0.1 in the float32 of the parameters: 13421773 * 2^-27. *)
Definition float32_0_1 : spec_float := S754_finite false 13421773 (-27).

(** [t.clamp_(min=lo, max=hi)] on one element: a NaN stays, anything else
    is [min(max(x, lo), hi)]. *)
Definition clamp (lo hi x : spec_float) : spec_float :=
  match x with
  | S754_nan => S754_nan
  | _ =>
      let m := if SFltb x lo then lo else x in
      if SFltb hi m then hi else m
  end.

(** [nn.utils.clip_grad_value_(parameters, clip_value)] *)
Definition clip_grad_value_ (grads : gradients) (clip_value : spec_float) : gradients :=
  map (option_map (map (clamp (SFopp clip_value) clip_value))) grads.

(** What a run leaves behind, latest first. *)
Inductive event : Type :=
| OptimizerStep (grads : gradients)      (* [optimizer.step()] and the gradients it finds *)
| ValidationRound (global_step : Z)      (* the branch of line 237 is entered *)
| AddScalar (tag : string) (global_step : Z)
| AddImages (tag : string) (global_step : Z).

Section Loop.

Variables batch weights : Type.

(** The forward pass, the loss, [optimizer.zero_grad()] and
    [loss.backward()] on one batch: the gradients, or the exception raised. *)
Variable backward : weights -> batch -> res gradients.

(** [optimizer.step()] *)
Variable optimizer_step : weights -> gradients -> weights.

(** The forward pass and the loss on one validation batch. *)
Variable validate : weights -> batch -> res unit.

Record state : Type := mk_state {
  global_step : Z;
  model : weights;
  training : bool;
  trace : list event
}.

(** Statements run on the state; an exception stops the run and leaves the
    state as it was when raised. *)
Definition M (A : Type) : Type := state -> state * res A.

Definition raise {A : Type} (e : exn) : M A := fun st => (st, Raise e).

#[local] Instance M_ret : MRet M := fun A a st => (st, Ok a).

#[local] Instance M_bind : MBind M := fun A B k m st =>
  match m st with
  | (st', Ok a) => k a st'
  | (st', Raise e) => (st', Raise e)
  end.

Definition lift {A : Type} (r : res A) : M A := fun st => (st, r).

Definition get : M state := fun st => (st, Ok st).

Definition emit (e : event) : M unit :=
  fun st => (mk_state (global_step st) (model st) (training st) (e :: trace st), Ok tt).

Definition set_training (b : bool) : M unit :=
  fun st => (mk_state (global_step st) (model st) b (trace st), Ok tt).

Definition set_model (w : weights) : M unit :=
  fun st => (mk_state (global_step st) w (training st) (trace st), Ok tt).

Definition incr_global_step : M unit :=
  fun st => (mk_state (global_step st + 1) (model st) (training st) (trace st), Ok tt).

(** [for x in l: body(x)] *)
Fixpoint for_each {A : Type} (body : A -> M unit) (l : list A) : M unit :=
  match l with
  | [] => mret tt
  | x :: rest => body x;; for_each body rest
  end.

(** [a // b] and [a % b] raise on a zero divisor. *)
Definition floordiv (a b : Z) : res Z :=
  if b =? 0 then Raise ZeroDivisionError else Ok (a / b).

Definition modulo (a b : Z) : res Z :=
  if b =? 0 then Raise ZeroDivisionError else Ok (a mod b).

(** Lines 238 to 256. *)
Definition validation_round (val_dataloader : list batch) : M unit :=
  st ← get;
  emit (ValidationRound (global_step st));;
  set_training false;;
  for_each (fun b => st ← get; lift (validate (model st) b)) val_dataloader;;
  set_training true;;
  let n_val := Z.of_nat (length val_dataloader) in
  (if n_val =? 0 then raise ZeroDivisionError else mret tt);;
  emit (AddScalar "learning_rate" (global_step st));;
  emit (AddScalar "Loss/validation" (global_step st));;
  emit (AddImages "images" (global_step st)).

(** Lines 221 to 256: one training batch. *)
Definition train_batch (batch_size n_train : Z) (val_dataloader : list batch)
    (b : batch) : M unit :=
  st ← get;
  grads ← lift (backward (model st) b);
  let grads := clip_grad_value_ grads float32_0_1 in
  emit (OptimizerStep grads);;
  set_model (optimizer_step (model st) grads);;
  incr_global_step;;
  st ← get;
  period ← lift (floordiv n_train (10 * batch_size));
  r ← lift (modulo (global_step st) period);
  if r =? 0 then validation_round val_dataloader else mret tt.

(** Lines 213 to 256: one epoch; [batches] is what the training loader
    yields in this pass. *)
Definition train_epoch (batch_size n_train : Z) (val_dataloader : list batch)
    (batches : list batch) : M unit :=
  set_training true;;
  for_each (train_batch batch_size n_train val_dataloader) batches.

(** [train_model]: the training loader is a function of the pass, since it
    shuffles; the validation loader yields the same batches every time. *)
Definition train_model (w : weights) (epochs batch_size n_train : Z)
    (train_dataloader : nat -> list batch) (val_dataloader : list batch)
  : state * res weights :=
  let run : M weights :=
    for_each (fun epoch =>
                train_epoch batch_size n_train val_dataloader (train_dataloader epoch))
             (seq 0 (Z.to_nat epochs));;
    st ← get;
    mret (model st) in
  run (mk_state 0 w true []).

(** The steps at which a validation round began, in the order of the run. *)
Fixpoint validation_steps (tr : list event) : list Z :=
  match tr with
  | [] => []
  | ValidationRound g :: rest => validation_steps rest ++ [g]
  | _ :: rest => validation_steps rest
  end.

(** The gradients the optimizer found at each of its steps. *)
Fixpoint optimizer_steps (tr : list event) : list gradients :=
  match tr with
  | [] => []
  | OptimizerStep g :: rest => optimizer_steps rest ++ [g]
  | _ :: rest => optimizer_steps rest
  end.

(** [n_train // (10 * batch_size)], the divisor of line 237. *)
Definition validation_period (batch_size n_train : Z) : Z :=
  n_train / (10 * batch_size).

Definition multiple_of (p g : Z) : bool :=
  negb (p =? 0) && (g mod p =? 0).

(** [abs(g) > 0.1] is false, in float32. *)
Definition within_clip (g : spec_float) : Prop :=
  SFltb float32_0_1 (SFabs g) = false.

Definition all_within_clip (grads : gradients) : Prop :=
  Forall (fun p => match p with
                   | Some elems => Forall within_clip elems
                   | None => True
                   end) grads.

(** *** Properties kept by every statement of the loop *)

Definition stable {A : Type} (I : state -> Prop) (m : M A) : Prop :=
  forall st, I st -> I (m st).1.

Lemma stable_bind {A B : Type} (I : state -> Prop) (m : M A) (k : A -> M B) :
  stable I m -> (forall a, stable I (k a)) -> stable I (m ≫= k).
Proof.
  intros Hm Hk st HI. unfold mbind, M_bind.
  specialize (Hm st HI). destruct (m st) as [st' [a|e]]; simpl in *.
  - apply Hk, Hm.
  - exact Hm.
Qed.

Lemma stable_ret {A : Type} (I : state -> Prop) (a : A) : stable I (mret a).
Proof. intros st HI. exact HI. Qed.

Lemma stable_raise {A : Type} (I : state -> Prop) (e : exn) : stable I (@raise A e).
Proof. intros st HI. exact HI. Qed.

Lemma stable_lift {A : Type} (I : state -> Prop) (r : res A) : stable I (lift r).
Proof. intros st HI. exact HI. Qed.

Lemma stable_get (I : state -> Prop) : stable I get.
Proof. intros st HI. exact HI. Qed.

Lemma stable_for_each {A : Type} (I : state -> Prop) (body : A -> M unit) (l : list A) :
  (forall x, stable I (body x)) -> stable I (for_each body l).
Proof.
  intros Hb. induction l as [|x l IH]; simpl.
  - apply stable_ret.
  - apply stable_bind; [apply Hb | intros _; exact IH].
Qed.

Create HintDb stable.

#[local] Hint Resolve stable_ret stable_raise stable_lift stable_get : stable.

(** *** The validation cadence *)

(** A statement that neither counts a step nor begins a validation round. *)
Definition quiet (g : Z) (v : list Z) (st : state) : Prop :=
  global_step st = g /\ validation_steps (trace st) = v.

Lemma quiet_set_training g v b : stable (quiet g v) (set_training b).
Proof. intros st H. exact H. Qed.

Lemma quiet_emit_scalar g v tag n : stable (quiet g v) (emit (AddScalar tag n)).
Proof. intros st H. exact H. Qed.

Lemma quiet_emit_images g v tag n : stable (quiet g v) (emit (AddImages tag n)).
Proof. intros st H. exact H. Qed.

Lemma validation_round_steps val_dataloader st :
  quiet (global_step st) (validation_steps (trace st) ++ [global_step st])
        (validation_round val_dataloader st).1.
Proof.
  unfold validation_round.
  change ((get ≫= _) st) with
    ((emit (ValidationRound (global_step st));;
      set_training false;;
      for_each (fun b => st ← get; lift (validate (model st) b)) val_dataloader;;
      set_training true;;
      (if Z.of_nat (length val_dataloader) =? 0 then raise ZeroDivisionError else mret tt);;
      emit (AddScalar "learning_rate" (global_step st));;
      emit (AddScalar "Loss/validation" (global_step st));;
      emit (AddImages "images" (global_step st))) st).
  set (g := global_step st). set (v := validation_steps (trace st) ++ [g]).
  change ((emit (ValidationRound g) ≫= ?k) st) with
    (k tt (mk_state g (model st) (training st) (ValidationRound g :: trace st))).
  cbv beta.
  assert (H0 : quiet g v (mk_state g (model st) (training st) (ValidationRound g :: trace st))).
  { split; reflexivity. }
  revert H0. generalize (mk_state g (model st) (training st) (ValidationRound g :: trace st)).
  change (stable (quiet g v)
    (set_training false;;
      for_each (fun b => st ← get; lift (validate (model st) b)) val_dataloader;;
      set_training true;;
      (if Z.of_nat (length val_dataloader) =? 0 then raise ZeroDivisionError else mret tt);;
      emit (AddScalar "learning_rate" g);;
      emit (AddScalar "Loss/validation" g);;
      emit (AddImages "images" g))).
  apply stable_bind; [apply quiet_set_training | intros _].
  apply stable_bind.
  { apply stable_for_each. intros b.
    apply stable_bind; [apply stable_get | intros a; apply stable_lift]. }
  intros _. apply stable_bind; [apply quiet_set_training | intros _].
  apply stable_bind.
  { destruct (_ =? 0); auto with stable. }
  intros _. apply stable_bind; [apply quiet_emit_scalar | intros _].
  apply stable_bind; [apply quiet_emit_scalar | intros _].
  apply quiet_emit_images.
Qed.

(** The validation rounds so far are the multiples of the period among the
    steps counted so far. *)
Definition cadence (p : Z) (st : state) : Prop :=
  0 <= global_step st
  /\ validation_steps (trace st) = List.filter (multiple_of p) (seqZ 1 (global_step st)).

Lemma seqZ_snoc (g : Z) : 0 <= g -> seqZ 1 (g + 1) = seqZ 1 g ++ [g + 1].
Proof.
  intros Hg. rewrite seqZ_app by lia. f_equal.
  rewrite seqZ_cons by lia. rewrite seqZ_nil by lia. f_equal. lia.
Qed.

Lemma cadence_step p g v :
  0 <= g -> v = List.filter (multiple_of p) (seqZ 1 g) ->
  0 <= g + 1
  /\ (if multiple_of p (g + 1) then v ++ [g + 1] else v)
     = List.filter (multiple_of p) (seqZ 1 (g + 1)).
Proof.
  intros Hg ->. split; [lia|].
  rewrite seqZ_snoc by exact Hg. rewrite List.filter_app. simpl.
  destruct (multiple_of p (g + 1)); [reflexivity | symmetry; apply app_nil_r].
Qed.

Lemma multiple_of_divide p g : multiple_of p g = true <-> p <> 0 /\ (p | g).
Proof.
  unfold multiple_of. rewrite andb_true_iff, negb_true_iff, Z.eqb_neq, Z.eqb_eq.
  split; intros [Hp H]; (split; [exact Hp|]).
  - apply Z.mod_divide; assumption.
  - apply Z.mod_divide; assumption.
Qed.

Lemma cadence_train_batch batch_size n_train val_dataloader b :
  stable (cadence (validation_period batch_size n_train))
         (train_batch batch_size n_train val_dataloader b).
Proof.
  intros st [Hg Hv]. unfold train_batch.
  unfold mbind at 1, M_bind at 1. cbn [get].
  unfold mbind at 1, M_bind at 1. cbn [lift].
  destruct (backward (model st) b) as [grads|e]; [|split; assumption].
  unfold mbind at 1, M_bind at 1. cbn [emit].
  unfold mbind at 1, M_bind at 1. cbn [set_model global_step model training trace].
  unfold mbind at 1, M_bind at 1. cbn [incr_global_step global_step model training trace].
  unfold mbind at 1, M_bind at 1. cbn [get].
  unfold mbind at 1, M_bind at 1. cbn [lift global_step].
  set (st1 := mk_state (global_step st + 1) _ _ _).
  destruct (cadence_step (validation_period batch_size n_train) _ _ Hg Hv) as [Hg1 Hv1].
  unfold floordiv. destruct (10 * batch_size =? 0) eqn:Hd.
  { split; [exact Hg1|].
    unfold st1; cbn [fst global_step trace validation_steps]. rewrite <- Hv1.
    apply Z.eqb_eq in Hd. unfold validation_period. rewrite Hd, Z.div_0_r.
    reflexivity. }
  fold (validation_period batch_size n_train).
  unfold mbind at 1, M_bind at 1. cbn [lift].
  unfold modulo. destruct (validation_period batch_size n_train =? 0) eqn:Hp.
  { split; [exact Hg1|].
    unfold st1; cbn [fst global_step trace validation_steps]. rewrite <- Hv1.
    apply Z.eqb_eq in Hp. rewrite Hp. reflexivity. }
  assert (Hm : multiple_of (validation_period batch_size n_train) (global_step st + 1)
               = ((global_step st + 1) mod validation_period batch_size n_train =? 0)).
  { unfold multiple_of. rewrite Hp. reflexivity. }
  rewrite Hm in Hv1.
  destruct ((global_step st + 1) mod validation_period batch_size n_train =? 0).
  - destruct (validation_round_steps val_dataloader st1) as [H1 H2].
    unfold st1 in H1 at 2, H2 at 2 3.
    cbn [global_step trace validation_steps] in H1, H2.
    split; [rewrite H1; exact Hg1|].
    rewrite H2, H1. exact Hv1.
  - split; [exact Hg1 | exact Hv1].
Qed.

Lemma cadence_set_training p b : stable (cadence p) (set_training b).
Proof. intros st H. exact H. Qed.

Lemma cadence_train_epoch batch_size n_train val_dataloader batches :
  stable (cadence (validation_period batch_size n_train))
         (train_epoch batch_size n_train val_dataloader batches).
Proof.
  unfold train_epoch. apply stable_bind; [apply cadence_set_training | intros _].
  apply stable_for_each. intros b. apply cadence_train_batch.
Qed.

(** The state a run ends in is the one its epochs leave. *)
Lemma train_model_state (I : state -> Prop) w epochs batch_size n_train
    train_dataloader val_dataloader :
  I (mk_state 0 w true []) ->
  (forall batches, stable I (train_epoch batch_size n_train val_dataloader batches)) ->
  I (train_model w epochs batch_size n_train train_dataloader val_dataloader).1.
Proof.
  intros H0 Hep. unfold train_model. revert H0. generalize (mk_state 0 w true []).
  change (stable I
    (for_each (fun epoch =>
                 train_epoch batch_size n_train val_dataloader (train_dataloader epoch))
              (seq 0 (Z.to_nat epochs));;
     st ← get; mret (model st))).
  apply stable_bind.
  - apply stable_for_each. intros epoch. apply Hep.
  - intros _. apply stable_bind; [apply stable_get | intros st; apply stable_ret].
Qed.

(** C3: in every run, ended or aborted, the validation rounds began at
    exactly the counted global steps that are multiples of
    [n_train // (10 * batch_size)], once each and in order. *)
Theorem validation_exactly_at_multiples w epochs batch_size n_train
    train_dataloader val_dataloader :
  let st := (train_model w epochs batch_size n_train train_dataloader val_dataloader).1 in
  let period := validation_period batch_size n_train in
  validation_steps (trace st)
  = List.filter (multiple_of period) (seqZ 1 (global_step st))
  /\ forall g, In g (validation_steps (trace st))
               <-> 1 <= g <= global_step st /\ (period | g).
Proof.
  intros st period.
  assert (H : cadence period st).
  { apply train_model_state.
    - split; [simpl; lia | reflexivity].
    - intros batches. apply cadence_train_epoch. }
  destruct H as [Hg Hv]. split; [exact Hv|].
  intros g. rewrite Hv, List.filter_In, multiple_of_divide.
  rewrite <- list_elem_of_In, elem_of_seqZ.
  split.
  - intros [Hin [_ Hdiv]]. split; [lia | exact Hdiv].
  - intros [Hin Hdiv]. split; [lia|]. split; [|exact Hdiv].
    intros ->. apply Z.divide_0_l in Hdiv. lia.
Qed.

(** *** Clipping *)

Lemma clamp_within (M : positive) (E : Z) (x : spec_float) :
  SFltb (S754_finite false M E)
        (SFabs (clamp (SFopp (S754_finite false M E)) (S754_finite false M E) x))
  = false.
Proof.
  assert (Hself : SFltb (S754_finite false M E) (S754_finite false M E) = false).
  { unfold SFltb, SFcompare. rewrite Z.compare_refl.
    change (Pos.compare_cont Eq M M) with (M ?= M)%positive.
    rewrite Pos.compare_refl. reflexivity. }
  destruct x as [s | s | | s m e]; cbn [clamp SFopp negb].
  - destruct s; reflexivity.
  - destruct s; cbn; exact Hself.
  - reflexivity.
  - destruct s.
    + destruct (SFltb (S754_finite true m e) (S754_finite true M E)) eqn:Hlo.
      * cbn. exact Hself.
      * cbn [SFltb SFcompare SFabs]. revert Hlo. unfold SFltb, SFcompare.
        rewrite (Z.compare_antisym e E).
        change (Pos.compare_cont Eq M m) with (M ?= m)%positive.
        change (Pos.compare_cont Eq m M) with (m ?= M)%positive.
        rewrite (Pos.compare_antisym m M).
        destruct (e ?= E); cbn; try discriminate; try reflexivity.
        destruct (m ?= M)%positive; cbn; try discriminate; reflexivity.
    + replace (SFltb (S754_finite false m e) (S754_finite true M E)) with false
        by reflexivity.
      destruct (SFltb (S754_finite false M E) (S754_finite false m e)) eqn:Hhi.
      * cbn. exact Hself.
      * cbn [SFabs]. exact Hhi.
Qed.

Lemma clip_grad_value_within (grads : gradients) :
  all_within_clip (clip_grad_value_ grads float32_0_1).
Proof.
  unfold all_within_clip, clip_grad_value_.
  apply Forall_map, Forall_forall. intros [elems|] _; cbn; [|exact I].
  apply Forall_map, Forall_forall. intros g _.
  apply (clamp_within 13421773 (-27)).
Qed.

(** Every optimizer step so far found clipped gradients. *)
Definition clipped (st : state) : Prop :=
  Forall all_within_clip (optimizer_steps (trace st)).

Lemma clipped_emit e :
  match e with OptimizerStep g => all_within_clip g | _ => True end ->
  stable clipped (emit e).
Proof.
  intros He st H. unfold clipped in *. cbn.
  destruct e; try exact H.
  apply Forall_app. split; [exact H | constructor; [exact He | constructor]].
Qed.

Lemma clipped_set_training b : stable clipped (set_training b).
Proof. intros st H. exact H. Qed.

Lemma clipped_set_model w : stable clipped (set_model w).
Proof. intros st H. exact H. Qed.

Lemma clipped_incr : stable clipped incr_global_step.
Proof. intros st H. exact H. Qed.

#[local] Hint Resolve clipped_set_training clipped_set_model clipped_incr : stable.

Ltac stable_steps :=
  repeat first
    [ apply stable_bind; [| intro]
    | apply stable_for_each; intro
    | apply clipped_emit; first [exact I | apply clip_grad_value_within]
    | solve [auto with stable] ].

Lemma clipped_validation_round val_dataloader :
  stable clipped (validation_round val_dataloader).
Proof.
  unfold validation_round. stable_steps.
  destruct (_ =? 0); auto with stable.
Qed.

Lemma clipped_train_batch batch_size n_train val_dataloader b :
  stable clipped (train_batch batch_size n_train val_dataloader b).
Proof.
  unfold train_batch. stable_steps.
  destruct (_ =? 0); [apply clipped_validation_round | auto with stable].
Qed.

Lemma clipped_train_epoch batch_size n_train val_dataloader batches :
  stable clipped (train_epoch batch_size n_train val_dataloader batches).
Proof.
  unfold train_epoch. apply stable_bind; [apply clipped_set_training | intros _].
  apply stable_for_each. intros b. apply clipped_train_batch.
Qed.

(** C4: in every run, at each optimizer step, no gradient element compares
    greater in absolute value than the clip value 0.1 (float32). *)
Theorem optimizer_finds_clipped_gradients w epochs batch_size n_train
    train_dataloader val_dataloader :
  Forall all_within_clip
    (optimizer_steps
       (trace (train_model w epochs batch_size n_train train_dataloader val_dataloader).1)).
Proof.
  apply (train_model_state clipped).
  - constructor.
  - intros batches. apply clipped_train_epoch.
Qed.

(** *** A training set smaller than ten batches *)

Lemma validation_period_small batch_size n_train :
  0 <= n_train < 10 * batch_size -> validation_period batch_size n_train = 0.
Proof. intros H. unfold validation_period. apply Z.div_small. exact H. Qed.

Lemma train_batch_zero_period batch_size n_train val_dataloader b st grads :
  validation_period batch_size n_train = 0 ->
  backward (model st) b = Ok grads ->
  train_batch batch_size n_train val_dataloader b st
  = (mk_state (global_step st + 1)
       (optimizer_step (model st) (clip_grad_value_ grads float32_0_1))
       (training st)
       (OptimizerStep (clip_grad_value_ grads float32_0_1) :: trace st),
     Raise ZeroDivisionError).
Proof.
  intros Hp Hb. unfold train_batch.
  unfold mbind at 1, M_bind at 1. cbn [get].
  unfold mbind at 1, M_bind at 1. cbn [lift]. rewrite Hb.
  unfold mbind at 1, M_bind at 1. cbn [emit].
  unfold mbind at 1, M_bind at 1. cbn [set_model global_step model training trace].
  unfold mbind at 1, M_bind at 1. cbn [incr_global_step global_step model training trace].
  unfold mbind at 1, M_bind at 1. cbn [get].
  unfold mbind at 1, M_bind at 1. cbn [lift global_step].
  unfold floordiv. destruct (10 * batch_size =? 0); [reflexivity|].
  fold (validation_period batch_size n_train). rewrite Hp.
  unfold mbind at 1, M_bind at 1. cbn [lift]. reflexivity.
Qed.

(** C9: with [0 <= n_train < 10 * batch_size] the divisor of line 237 is
    zero, and the first batch of the first epoch, once its backward pass and
    optimizer step are done, aborts the run with ZeroDivisionError at global
    step 1, before any validation round. *)
Theorem small_training_set_divides_by_zero w epochs batch_size n_train
    train_dataloader val_dataloader b rest grads :
  0 <= n_train < 10 * batch_size ->
  0 < epochs ->
  train_dataloader 0%nat = b :: rest ->
  backward w b = Ok grads ->
  validation_period batch_size n_train = 0
  /\ train_model w epochs batch_size n_train train_dataloader val_dataloader
     = (mk_state 1 (optimizer_step w (clip_grad_value_ grads float32_0_1)) true
          [OptimizerStep (clip_grad_value_ grads float32_0_1)],
        Raise ZeroDivisionError).
Proof.
  intros Hn He Hl Hb.
  pose proof (validation_period_small _ _ Hn) as Hp. split; [exact Hp|].
  unfold train_model.
  destruct (Z.to_nat epochs) as [|n] eqn:Hk; [lia|].
  cbn [seq for_each].
  unfold mbind at 1, M_bind at 1.
  unfold mbind at 1, M_bind at 1.
  unfold train_epoch at 1. rewrite Hl. cbn [for_each].
  unfold mbind at 1, M_bind at 1. cbn [set_training global_step model training trace].
  unfold mbind at 1, M_bind at 1.
  rewrite (train_batch_zero_period _ _ _ _ _ grads Hp) by exact Hb.
  reflexivity.
Qed.

(** *** One batch, in two halves *)

(** Line 237 onwards, on the state the optimizer step has left. *)
Definition check_validation (batch_size n_train : Z) (val_dataloader : list batch) : M unit :=
  st ← get;
  period ← lift (floordiv n_train (10 * batch_size));
  r ← lift (modulo (global_step st) period);
  if r =? 0 then validation_round val_dataloader else mret tt.

Definition after_optimizer_step (st : state) (grads : gradients) : state :=
  mk_state (global_step st + 1)
    (optimizer_step (model st) (clip_grad_value_ grads float32_0_1))
    (training st)
    (OptimizerStep (clip_grad_value_ grads float32_0_1) :: trace st).

Lemma train_batch_unfold batch_size n_train val_dataloader b st :
  train_batch batch_size n_train val_dataloader b st
  = match backward (model st) b with
    | Ok grads =>
        check_validation batch_size n_train val_dataloader (after_optimizer_step st grads)
    | Raise e => (st, Raise e)
    end.
Proof.
  unfold train_batch.
  unfold mbind at 1, M_bind at 1. cbn [get].
  unfold mbind at 1, M_bind at 1. cbn [lift].
  destruct (backward (model st) b) as [grads|e]; reflexivity.
Qed.

(** A property of the state that only an optimizer step can change. *)
Definition framed (I : state -> Prop) : Prop :=
  (forall b, stable I (set_training b))
  /\ (forall e, match e with OptimizerStep _ => False | _ => True end -> stable I (emit e)).

Lemma framed_validation_round I val_dataloader :
  framed I -> stable I (validation_round val_dataloader).
Proof.
  intros [Hset Hemit]. unfold validation_round.
  apply stable_bind; [apply stable_get | intros st0].
  apply stable_bind; [apply Hemit; exact Logic.I | intros _].
  apply stable_bind; [apply Hset | intros _].
  apply stable_bind.
  { apply stable_for_each. intros b.
    apply stable_bind; [apply stable_get | intros a; apply stable_lift]. }
  intros _. apply stable_bind; [apply Hset | intros _].
  apply stable_bind.
  { destruct (_ =? 0); [apply stable_raise | apply stable_ret]. }
  intros _. apply stable_bind; [apply Hemit; exact Logic.I | intros _].
  apply stable_bind; [apply Hemit; exact Logic.I | intros _].
  apply Hemit. exact Logic.I.
Qed.

Lemma framed_check_validation I batch_size n_train val_dataloader :
  framed I -> stable I (check_validation batch_size n_train val_dataloader).
Proof.
  intros HI. unfold check_validation.
  apply stable_bind; [apply stable_get | intros st0].
  apply stable_bind; [apply stable_lift | intros period].
  apply stable_bind; [apply stable_lift | intros r].
  destruct (r =? 0); [apply framed_validation_round; exact HI | apply stable_ret].
Qed.

Lemma framed_train_model I w epochs batch_size n_train train_dataloader val_dataloader :
  framed I ->
  (forall st grads, I st -> I (after_optimizer_step st grads)) ->
  I (mk_state 0 w true []) ->
  I (train_model w epochs batch_size n_train train_dataloader val_dataloader).1.
Proof.
  intros HI Hstep H0. apply train_model_state; [exact H0|].
  intros batches. unfold train_epoch.
  apply stable_bind; [apply HI | intros _].
  apply stable_for_each. intros b st Hst.
  rewrite train_batch_unfold.
  destruct (backward (model st) b) as [grads|e]; [|exact Hst].
  apply framed_check_validation; [exact HI|].
  apply Hstep. exact Hst.
Qed.

(** *** Steps *)

Definition counted (st : state) : Prop :=
  global_step st = Z.of_nat (length (optimizer_steps (trace st))).

Lemma framed_counted : framed counted.
Proof.
  split.
  - intros b st H. exact H.
  - intros e He st H. destruct e; [destruct He | exact H ..].
Qed.

(** X15: in every run, ended or aborted, the global step counter equals the
    number of optimizer steps taken. *)
Theorem global_step_counts_optimizer_steps w epochs batch_size n_train
    train_dataloader val_dataloader :
  let st := (train_model w epochs batch_size n_train train_dataloader val_dataloader).1 in
  global_step st = Z.of_nat (length (optimizer_steps (trace st))).
Proof.
  cbv zeta. apply (framed_train_model counted).
  - apply framed_counted.
  - intros st grads H. unfold counted in *. cbn [after_optimizer_step global_step trace optimizer_steps].
    rewrite length_app, H. cbn [length]. lia.
  - reflexivity.
Qed.

(** *** What holds when a statement returns *)

Definition ensures {A : Type} (P Q : state -> Prop) (m : M A) : Prop :=
  forall st, P st ->
    match m st with
    | (st', Ok _) => Q st'
    | (_, Raise _) => True
    end.

Lemma ensures_bind {A B : Type} (P Q R : state -> Prop) (m : M A) (k : A -> M B) :
  ensures P Q m -> (forall a, ensures Q R (k a)) -> ensures P R (m ≫= k).
Proof.
  intros Hm Hk st HP. unfold mbind, M_bind.
  specialize (Hm st HP). destruct (m st) as [st' [a|e]]; [|exact Logic.I].
  apply Hk, Hm.
Qed.

Lemma ensures_stable {A : Type} (P : state -> Prop) (m : M A) :
  stable P m -> ensures P P m.
Proof.
  intros Hm st HP. specialize (Hm st HP).
  destruct (m st) as [st' [a|e]]; [exact Hm | exact Logic.I].
Qed.

Lemma ensures_for_each {A : Type} (P : state -> Prop) (body : A -> M unit) (l : list A) :
  (forall x, ensures P P (body x)) -> ensures P P (for_each body l).
Proof.
  intros Hb. induction l as [|x l IH]; cbn [for_each].
  - intros st HP. exact HP.
  - eapply ensures_bind; [apply Hb | intros _; exact IH].
Qed.

Lemma ensures_train_model (P : state -> Prop) w epochs batch_size n_train
    train_dataloader val_dataloader w' :
  P (mk_state 0 w true []) ->
  (forall batches, ensures P P (train_epoch batch_size n_train val_dataloader batches)) ->
  (train_model w epochs batch_size n_train train_dataloader val_dataloader).2 = Ok w' ->
  P (train_model w epochs batch_size n_train train_dataloader val_dataloader).1.
Proof.
  intros H0 Hep. unfold train_model.
  assert (Hrun : ensures P P
    (for_each (fun epoch =>
                 train_epoch batch_size n_train val_dataloader (train_dataloader epoch))
              (seq 0 (Z.to_nat epochs));;
     st ← get; mret (model st))).
  { eapply ensures_bind.
    - apply ensures_for_each. intros epoch. apply Hep.
    - intros _. apply ensures_stable.
      apply stable_bind; [apply stable_get | intros st; apply stable_ret]. }
  specialize (Hrun _ H0). cbv zeta.
  match goal with
  | |- (?r).2 = _ -> _ => destruct r as [st' [a|e]]
  end; cbn [fst snd].
  - intros _. exact Hrun.
  - discriminate.
Qed.

(** *** An empty validation loader *)

Lemma validation_round_empty st :
  (validation_round [] st).2 = Raise ZeroDivisionError.
Proof. reflexivity. Qed.

Definition no_round (st : state) : Prop := validation_steps (trace st) = [].

Lemma no_round_train_batch batch_size n_train b :
  ensures no_round no_round (train_batch batch_size n_train [] b).
Proof.
  intros st Hst. rewrite train_batch_unfold.
  destruct (backward (model st) b) as [grads|e]; [|exact Logic.I].
  assert (H1 : no_round (after_optimizer_step st grads)) by exact Hst.
  revert H1. generalize (after_optimizer_step st grads). clear st Hst.
  change (ensures no_round no_round (check_validation batch_size n_train [])).
  unfold check_validation.
  eapply ensures_bind; [apply ensures_stable, stable_get | intros st0].
  eapply ensures_bind; [apply ensures_stable, stable_lift | intros period].
  eapply ensures_bind; [apply ensures_stable, stable_lift | intros r].
  destruct (r =? 0).
  - intros st _. pose proof (validation_round_empty st) as H.
    destruct (validation_round [] st) as [st' [a|e]]; [discriminate | exact Logic.I].
  - apply ensures_stable, stable_ret.
Qed.

(** X17: with an empty validation loader, a run that returns has begun no
    validation round: the first round to begin divides by the loader's
    length, zero, and aborts the run. *)
Theorem empty_validation_loader_no_round w epochs batch_size n_train
    train_dataloader w' :
  (train_model w epochs batch_size n_train train_dataloader []).2 = Ok w' ->
  validation_steps (trace (train_model w epochs batch_size n_train train_dataloader []).1) = [].
Proof.
  apply (ensures_train_model no_round).
  - reflexivity.
  - intros batches. unfold train_epoch.
    eapply ensures_bind.
    + apply ensures_stable. intros st H. exact H.
    + intros _. apply ensures_for_each. intros b. apply no_round_train_batch.
Qed.

(** *** The mode of the network *)

Definition in_training (st : state) : Prop := training st = true.

Lemma in_training_emit e : stable in_training (emit e).
Proof. intros st H. exact H. Qed.

Lemma in_training_validation_round val_dataloader :
  ensures in_training in_training (validation_round val_dataloader).
Proof.
  unfold validation_round.
  eapply (ensures_bind _ in_training); [apply ensures_stable, stable_get | intros st0].
  eapply (ensures_bind _ in_training); [apply ensures_stable, in_training_emit | intros _].
  eapply (ensures_bind _ (fun _ => True)); [intros st _; exact Logic.I | intros _].
  eapply (ensures_bind _ (fun _ => True)).
  { apply ensures_stable, stable_for_each. intros b st _.  exact Logic.I. }
  intros _.
  eapply (ensures_bind _ in_training); [intros st _; reflexivity | intros _].
  eapply (ensures_bind _ in_training).
  { apply ensures_stable. destruct (_ =? 0); [apply stable_raise | apply stable_ret]. }
  intros _.
  eapply (ensures_bind _ in_training); [apply ensures_stable, in_training_emit | intros _].
  eapply (ensures_bind _ in_training); [apply ensures_stable, in_training_emit | intros _].
  apply ensures_stable, in_training_emit.
Qed.

Lemma in_training_train_batch batch_size n_train val_dataloader b :
  ensures in_training in_training (train_batch batch_size n_train val_dataloader b).
Proof.
  intros st Hst. rewrite train_batch_unfold.
  destruct (backward (model st) b) as [grads|e]; [|exact Logic.I].
  assert (H1 : in_training (after_optimizer_step st grads)) by exact Hst.
  revert H1. generalize (after_optimizer_step st grads). clear st Hst.
  change (ensures in_training in_training
            (check_validation batch_size n_train val_dataloader)).
  unfold check_validation.
  eapply ensures_bind; [apply ensures_stable, stable_get | intros st0].
  eapply ensures_bind; [apply ensures_stable, stable_lift | intros period].
  eapply ensures_bind; [apply ensures_stable, stable_lift | intros r].
  destruct (r =? 0).
  - apply in_training_validation_round.
  - apply ensures_stable, stable_ret.
Qed.

(** X18: a run of at least one epoch that returns leaves the network in
    training mode, although every validation round switched it to
    evaluation mode in between. *)
Theorem returns_in_training_mode w epochs batch_size n_train
    train_dataloader val_dataloader w' :
  0 < epochs ->
  (train_model w epochs batch_size n_train train_dataloader val_dataloader).2 = Ok w' ->
  training (train_model w epochs batch_size n_train train_dataloader val_dataloader).1 = true.
Proof.
  intros _. apply (ensures_train_model in_training).
  - reflexivity.
  - intros batches. unfold train_epoch.
    eapply (ensures_bind _ in_training).
    + intros st _. reflexivity.
    + intros _. apply ensures_for_each. intros b. apply in_training_train_batch.
Qed.

(** *** A run without exceptions *)

Section NoException.

Variables (batch_size n_train : Z) (val_dataloader : list batch).

Hypothesis backward_ok : forall w b, exists grads, backward w b = Ok grads.
Hypothesis validate_ok : forall w b, validate w b = Ok tt.
Hypothesis batch_size_pos : 0 < batch_size.
Hypothesis ten_batches : 10 * batch_size <= n_train.
Hypothesis val_batches : val_dataloader <> [].

Lemma validation_loop_ok (l : list batch) st :
  for_each (fun b => st ← get; lift (validate (model st) b)) l st = (st, Ok tt).
Proof.
  induction l as [|b l IH]; [reflexivity|].
  cbn [for_each]. unfold mbind at 1, M_bind at 1.
  unfold mbind at 1, M_bind at 1. cbn [get lift].
  rewrite validate_ok. exact IH.
Qed.

Lemma validation_round_ok st :
  exists st', validation_round val_dataloader st = (st', Ok tt)
              /\ global_step st' = global_step st /\ training st' = true.
Proof.
  unfold validation_round.
  unfold mbind at 1, M_bind at 1. cbn [get].
  unfold mbind at 1, M_bind at 1. cbn [emit].
  unfold mbind at 1, M_bind at 1. cbn [set_training global_step model training trace].
  unfold mbind at 1, M_bind at 1. rewrite validation_loop_ok.
  unfold mbind at 1, M_bind at 1. cbn [set_training global_step model training trace].
  destruct val_dataloader as [|b l]; [congruence|].
  eexists. split; [reflexivity|]. split; reflexivity.
Qed.

Lemma check_validation_ok st :
  exists st', check_validation batch_size n_train val_dataloader st = (st', Ok tt)
              /\ global_step st' = global_step st
              /\ (training st = true -> training st' = true).
Proof.
  unfold check_validation.
  unfold mbind at 1, M_bind at 1. cbn [get].
  unfold floordiv. replace (10 * batch_size =? 0) with false
    by (symmetry; apply Z.eqb_neq; lia).
  unfold mbind at 1, M_bind at 1. cbn [lift].
  unfold modulo.
  assert (Hp : 0 < n_train / (10 * batch_size)).
  { apply Z.div_str_pos. lia. }
  replace (n_train / (10 * batch_size) =? 0) with false
    by (symmetry; apply Z.eqb_neq; lia).
  unfold mbind at 1, M_bind at 1. cbn [lift].
  destruct (_ =? 0).
  - destruct (validation_round_ok st) as (st' & -> & Hg & Ht).
    exists st'. split; [reflexivity|]. split; [exact Hg | intros _; exact Ht].
  - exists st. split; [reflexivity|]. split; [reflexivity | auto].
Qed.

Lemma train_batch_ok b st :
  exists st', train_batch batch_size n_train val_dataloader b st = (st', Ok tt)
              /\ global_step st' = global_step st + 1
              /\ (training st = true -> training st' = true).
Proof.
  rewrite train_batch_unfold.
  destruct (backward_ok (model st) b) as [grads ->].
  destruct (check_validation_ok (after_optimizer_step st grads)) as (st' & -> & Hg & Ht).
  exists st'. split; [reflexivity|]. split; [rewrite Hg; reflexivity | exact Ht].
Qed.

Lemma train_batches_ok (batches : list batch) st :
  exists st', for_each (train_batch batch_size n_train val_dataloader) batches st
              = (st', Ok tt)
              /\ global_step st' = global_step st + Z.of_nat (length batches)
              /\ (training st = true -> training st' = true).
Proof.
  revert st. induction batches as [|b l IH]; intros st.
  - exists st. split; [reflexivity|]. split; [cbn; lia | auto].
  - cbn [for_each]. unfold mbind at 1, M_bind at 1.
    destruct (train_batch_ok b st) as (st1 & -> & Hg1 & Ht1).
    destruct (IH st1) as (st2 & -> & Hg2 & Ht2).
    exists st2. split; [reflexivity|]. split; [cbn [length]; lia | auto].
Qed.

Lemma train_epochs_ok (train_dataloader : nat -> list batch) (epochs : list nat) st :
  training st = true ->
  exists st',
    for_each (fun epoch =>
                train_epoch batch_size n_train val_dataloader (train_dataloader epoch))
             epochs st
    = (st', Ok tt)
    /\ global_step st'
       = global_step st + Z.of_nat (length (flat_map train_dataloader epochs))
    /\ training st' = true.
Proof.
  revert st. induction epochs as [|epoch l IH]; intros st Ht.
  - exists st. split; [reflexivity|]. split; [cbn; lia | exact Ht].
  - cbn [for_each flat_map]. unfold mbind at 1, M_bind at 1.
    unfold train_epoch at 1. unfold mbind at 1, M_bind at 1.
    cbn [set_training].
    destruct (train_batches_ok (train_dataloader epoch)
                (mk_state (global_step st) (model st) true (trace st)))
      as (st1 & -> & Hg1 & Ht1).
    destruct (IH st1 (Ht1 eq_refl)) as (st2 & -> & Hg2 & Ht2).
    exists st2. split; [reflexivity|]. split; [|exact Ht2].
    rewrite length_app. cbn [global_step] in Hg1. lia.
Qed.

End NoException.

(** X19: when no forward or backward pass raises, the batch size is
    positive, the training set holds at least ten batches and the validation
    loader at least one, the run returns its weights and has counted one
    global step per training batch of every epoch. *)
Theorem run_returns w epochs batch_size n_train train_dataloader val_dataloader :
  (forall w b, exists grads, backward w b = Ok grads) ->
  (forall w b, validate w b = Ok tt) ->
  0 < batch_size ->
  10 * batch_size <= n_train ->
  val_dataloader <> [] ->
  exists st,
    train_model w epochs batch_size n_train train_dataloader val_dataloader
    = (st, Ok (model st))
    /\ global_step st
       = Z.of_nat (length (flat_map train_dataloader (seq 0 (Z.to_nat epochs)))).
Proof.
  intros Hb Hv Hbs Hn Hval. unfold train_model. cbv zeta.
  unfold mbind at 1, M_bind at 1.
  destruct (train_epochs_ok batch_size n_train val_dataloader Hb Hv Hbs Hn Hval
              train_dataloader (seq 0 (Z.to_nat epochs)) (mk_state 0 w true []) eq_refl)
    as (st & -> & Hg & Ht).
  exists st. split; [reflexivity | exact Hg].
Qed.

(** *** How many validation rounds *)

Lemma count_multiples (p : Z) (n : nat) :
  0 < p ->
  Z.of_nat (length (List.filter (multiple_of p) (seqZ 1 (Z.of_nat n)))) = Z.of_nat n / p.
Proof.
  intros Hp. induction n as [|n IH].
  - cbn. symmetry. apply Z.div_0_l. lia.
  - rewrite seqZ_S, List.filter_app, length_app, Nat2Z.inj_add, IH.
    cbn [List.filter]. unfold multiple_of.
    replace (p =? 0) with false by (symmetry; apply Z.eqb_neq; lia).
    cbn [negb andb].
    replace (Z.of_nat (S n)) with (Z.of_nat n + 1) by lia.
    replace (1 + Z.of_nat n) with (Z.of_nat n + 1) by lia.
    destruct ((Z.of_nat n + 1) mod p =? 0) eqn:E; cbn [length].
    + apply Z.eqb_eq in E.
      pose proof (Z.div_mod (Z.of_nat n) p ltac:(lia)) as H1.
      pose proof (Z.div_mod (Z.of_nat n + 1) p ltac:(lia)) as H2.
      pose proof (Z.mod_pos_bound (Z.of_nat n) p Hp) as H3.
      rewrite E in H2. nia.
    + apply Z.eqb_neq in E.
      pose proof (Z.div_mod (Z.of_nat n) p ltac:(lia)) as H1.
      pose proof (Z.div_mod (Z.of_nat n + 1) p ltac:(lia)) as H2.
      pose proof (Z.mod_pos_bound (Z.of_nat n) p Hp) as H3.
      pose proof (Z.mod_pos_bound (Z.of_nat n + 1) p Hp) as H4.
      nia.
Qed.

(** X20: in every run with a positive period [n_train // (10 * batch_size)],
    the number of validation rounds begun is the global step counter
    divided by the period, rounded down. *)
Theorem validation_rounds_counted w epochs batch_size n_train
    train_dataloader val_dataloader :
  0 < validation_period batch_size n_train ->
  let st := (train_model w epochs batch_size n_train train_dataloader val_dataloader).1 in
  Z.of_nat (length (validation_steps (trace st)))
  = global_step st / validation_period batch_size n_train.
Proof.
  intros Hp. cbv zeta.
  assert (H : cadence (validation_period batch_size n_train)
                (train_model w epochs batch_size n_train train_dataloader val_dataloader).1).
  { apply train_model_state.
    - split; [simpl; lia | reflexivity].
    - intros batches. apply cadence_train_epoch. }
  destruct H as [Hg ->].
  rewrite <- (Z2Nat.id _ Hg) at 1. rewrite count_multiples by exact Hp.
  rewrite Z2Nat.id by exact Hg. reflexivity.
Qed.

End Loop.

Arguments mk_state {weights} global_step model training trace.
Arguments global_step {weights} s.
Arguments model {weights} s.
Arguments training {weights} s.
Arguments trace {weights} s.

(** *** Sample runs

    Batches are numbered, the weights count the optimizer steps, and every
    backward pass yields the gradients [1.0; -inf; NaN; 2^-4] for one
    parameter and none for another. *)

Definition sample_grads : gradients :=
  [ Some [ S754_finite false 8388608 (-23); S754_infinity true; S754_nan;
           S754_finite false 8388608 (-27) ];
    None ].

Definition sample_backward (w : nat) (b : nat) : res gradients := Ok sample_grads.

Definition sample_step (w : nat) (g : gradients) : nat := S w.

Definition sample_validate (w : nat) (b : nat) : res unit := Ok tt.

Definition sample_run (epochs batch_size n_train : Z) (per_epoch : list nat)
    (val_dataloader : list nat) : state nat * res nat :=
  train_model nat nat sample_backward sample_step sample_validate
    0%nat epochs batch_size n_train (fun _ => per_epoch) val_dataloader.

Example clip_sample :
  clip_grad_value_ sample_grads float32_0_1
  = [ Some [ float32_0_1; SFopp float32_0_1; S754_nan;
             S754_finite false 8388608 (-27) ];
      None ].
Proof. vm_compute. reflexivity. Qed.

(** 13421773 * 2^-27 is a float32, and the one nearest to 1/10. *)
Example float32_0_1_nearest :
  valid_binary 24 128 float32_0_1 = true
  /\ Z.abs (10 * 13421773 - 2 ^ 27) * 2 <= 10.
Proof. split; [reflexivity | vm_compute; discriminate]. Qed.

(** 80 samples in batches of 4: a round every 2 steps. *)
Example run_80_by_4 :
  let st := (sample_run 2 4 80 [1; 2; 3; 4; 5]%nat [1; 2]%nat).1 in
  global_step st = 10
  /\ validation_steps (trace st) = [2; 4; 6; 8; 10]
  /\ length (optimizer_steps (trace st)) = 10%nat
  /\ (sample_run 2 4 80 [1; 2; 3; 4; 5]%nat [1; 2]%nat).2 = Ok 10%nat.
Proof. vm_compute. repeat split; reflexivity. Qed.

(** An empty validation loader aborts the first round. *)
Example run_without_validation_batches :
  sample_run 2 4 80 [1; 2; 3; 4; 5]%nat []
  = (mk_state 2 2%nat true
       [ ValidationRound 2;
         OptimizerStep (clip_grad_value_ sample_grads float32_0_1);
         OptimizerStep (clip_grad_value_ sample_grads float32_0_1) ],
     Raise ZeroDivisionError).
Proof. vm_compute. reflexivity. Qed.

(** No batch, no division. *)
Example run_without_batches : sample_run 2 4 0 [] [1%nat] = (mk_state 0 0%nat true [], Ok 0%nat).
Proof. vm_compute. reflexivity. Qed.

Lemma small_training_set_divides_by_zero_witness :
  validation_period 4 39 = 0
  /\ sample_run 2 4 39 [1; 2; 3]%nat [1%nat]
     = (mk_state 1 1%nat true [OptimizerStep (clip_grad_value_ sample_grads float32_0_1)],
        Raise ZeroDivisionError).
Proof.
  apply (small_training_set_divides_by_zero nat nat sample_backward sample_step
           sample_validate 0%nat 2 4 39 (fun _ => [1; 2; 3]%nat) [1%nat]
           1%nat [2; 3]%nat sample_grads).
  - lia.
  - lia.
  - reflexivity.
  - reflexivity.
Defined.

(** *** The sample runs again *)

Lemma empty_validation_loader_no_round_witness :
  validation_steps (trace (sample_run 1 4 80 [1%nat] []).1) = [].
Proof.
  apply (empty_validation_loader_no_round nat nat sample_backward sample_step
           sample_validate 0%nat 1 4 80 (fun _ => [1%nat]) 1%nat).
  vm_compute. reflexivity.
Defined.

Lemma returns_in_training_mode_witness :
  training (sample_run 2 4 80 [1; 2; 3; 4; 5]%nat [1; 2]%nat).1 = true.
Proof.
  apply (returns_in_training_mode nat nat sample_backward sample_step sample_validate
           0%nat 2 4 80 (fun _ => [1; 2; 3; 4; 5]%nat) [1; 2]%nat 10%nat).
  - lia.
  - vm_compute. reflexivity.
Defined.

Lemma run_returns_witness :
  exists st,
    sample_run 2 4 80 [1; 2; 3; 4; 5]%nat [1; 2]%nat = (st, Ok (model st))
    /\ global_step st
       = Z.of_nat (length (flat_map (fun _ : nat => [1; 2; 3; 4; 5]%nat)
                             (seq 0 (Z.to_nat 2)))).
Proof.
  apply (run_returns nat nat sample_backward sample_step sample_validate
           0%nat 2 4 80 (fun _ => [1; 2; 3; 4; 5]%nat) [1; 2]%nat).
  - intros w b. exists sample_grads. reflexivity.
  - intros w b. reflexivity.
  - lia.
  - lia.
  - discriminate.
Defined.

Lemma validation_rounds_counted_witness :
  Z.of_nat (length (validation_steps
                      (trace (sample_run 2 4 80 [1; 2; 3; 4; 5]%nat [1; 2]%nat).1)))
  = global_step (sample_run 2 4 80 [1; 2; 3; 4; 5]%nat [1; 2]%nat).1
    / validation_period 4 80.
Proof.
  apply (validation_rounds_counted nat nat sample_backward sample_step sample_validate
           0%nat 2 4 80 (fun _ => [1; 2; 3; 4; 5]%nat) [1; 2]%nat).
  vm_compute. reflexivity.
Defined.

End Train.
